(** * Visibility filter and ownership guard of the blog views

    A shallow embedding of [blog/models.py] and [blog/views.py].

    The relational store is a record of tables, each table a list of rows in
    storage order.  A queryset is the list of rows it evaluates to.  Views
    are functions from the server state and the request to a response (and,
    for mutating views, the next store).  Date-times are integers
    (microseconds on the server clock). *)

From Stdlib Require Import ZArith List String Bool Lia.
From Stdlib Require Import Sorted Permutation Orders Mergesort Relations.
Import ListNotations.

Open Scope string_scope.
Open Scope Z_scope.

(** ** Constants of [views.py] *)

Definition OBJECTS_PER_PAGE : Z := 10.
Definition PROFILE_HTML : string := "blog/profile.html".

(** ** Models *)

Module User.
(** [django.contrib.auth]'s user: primary key and the unique username. *)
Record t := { id : Z; username : string }.
End User.

Module Category.
(** Modelled from the spec: [core.models.CommonData] is not among the
    sources; section 3 gives every model deriving from it a published flag
    and a creation timestamp, here [is_published] and [created_at], the
    names [views.py] and [admin.py] use. *)
Record t := {
  id : Z;
  title : string;
  description : string;
  slug : string;
  is_published : bool;
  created_at : Z
}.
End Category.

Module Location.
Record t := {
  id : Z;
  name : string;
  is_published : bool;
  created_at : Z
}.
End Location.

Module Post.
(** The foreign keys hold the referenced row's primary key; [location] and
    [category] are nullable ([null=True], [on_delete=SET_NULL]). *)
Record t := {
  id : Z;
  title : string;
  text : string;
  pub_date : Z;
  author : Z;
  location : option Z;
  category : option Z;
  image : string;
  is_published : bool;
  created_at : Z
}.
End Post.

Module Comment.
Record t := {
  id : Z;
  text : string;
  posts : Z;
  created_at : Z;
  author : Z
}.
End Comment.

(** ** The store *)

Record Database := {
  auth_user : list User.t;
  blog_category : list Category.t;
  blog_location : list Location.t;
  blog_post : list Post.t;
  blog_comment : list Comment.t
}.

(** Constraints the schema declares: primary keys are unique, and so are
    [Category.slug] ([unique=True]) and the username. *)
Record db_constraints (db : Database) : Prop := {
  post_pk_unique : NoDup (map Post.id (blog_post db));
  comment_pk_unique : NoDup (map Comment.id (blog_comment db));
  category_slug_unique : NoDup (map Category.slug (blog_category db));
  username_unique : NoDup (map User.username (auth_user db))
}.

(** ** Requests and responses *)

(** [request.user]: [AnonymousUser] or the logged-in user. *)
Inductive RequestUser :=
| AnonymousUser
| LoggedIn (u : User.t).

Definition is_authenticated (u : RequestUser) : bool :=
  match u with
  | AnonymousUser => false
  | LoggedIn _ => true
  end.

(** [instance.author != request.user], with the foreign key resolved: model
    instances are equal when their primary keys are, and [AnonymousUser]
    equals no model instance. *)
Definition author_ne (author : Z) (u : RequestUser) : bool :=
  match u with
  | AnonymousUser => true
  | LoggedIn v => negb (author =? User.id v)
  end.

(** The keyword arguments the URL resolver extracts from the path; a key the
    route does not carry reads as [None], as [kwargs.get] does. *)
Record Kwargs := {
  post_id : option Z;
  comment_id : option Z;
  category_slug : option string;
  username : option string
}.

(** What [request.GET.get('page')] holds when the parameter is present,
    classified by what [int()] makes of the text. *)
Inductive PageText :=
| page_int (n : Z)      (* text that [int()] reads as [n] *)
| page_last             (* the text 'last' *)
| page_empty            (* the empty text *)
| page_other.           (* any other text: [int()] raises ValueError *)

Inductive Method := GET | POST.

(** The named routes the views reverse. *)
Inductive Url :=
| url_index
| url_post_detail (post_id : Z)
| url_profile (username : string)
| url_login.

(** ** Querysets *)

(** A row of [Post.objects.annotate(comment_count=Count('comments'))]. *)
Record AnnotatedPost := {
  post : Post.t;
  comment_count : nat
}.

Definition opt_Z_eqb (a : option Z) (b : Z) : bool :=
  match a with
  | Some x => x =? b
  | None => false
  end.

Section Queries.
Variable db : Database.

(** [Count('comments')]: the rows of the reverse relation, none filtered. *)
Definition Count_comments (p : Post.t) : nat :=
  List.length
    (filter (fun c => Comment.posts c =? Post.id p) (blog_comment db)).

Definition annotate (p : Post.t) : AnnotatedPost :=
  {| post := p; comment_count := Count_comments p |}.

(** The join a [category__...] lookup makes: the category row the foreign
    key points to; a post whose [category] is null joins with nothing. *)
Definition Post_category (p : Post.t) : option Category.t :=
  match Post.category p with
  | None => None
  | Some k => find (fun c => Category.id c =? k) (blog_category db)
  end.

(** [filter(category__is_published=True)] *)
Definition category__is_published (p : Post.t) : bool :=
  match Post_category p with
  | Some c => Category.is_published c
  | None => false
  end.

(** [filter(category__slug=s)] *)
Definition category__slug (s : option string) (p : Post.t) : bool :=
  match Post_category p, s with
  | Some c, Some s' => String.eqb (Category.slug c) s'
  | _, _ => false
  end.

(** [get_object_or_404(Post, id=k)]: the row under the key [k].  [None]
    stands for the exception the call raises when there is no such row;
    which one, and the response it ends in, is [no_row] below: the keys of
    the store are 64-bit integers, and a row of the store has a key the
    store can hold. *)
Definition get_Post_or_404 (k : option Z) : option Post.t :=
  find (fun p => opt_Z_eqb k (Post.id p)) (blog_post db).

(** [get_object_or_404(Comment, id=k)], read as [get_Post_or_404]. *)
Definition get_Comment_or_404 (k : option Z) : option Comment.t :=
  find (fun c => opt_Z_eqb k (Comment.id c)) (blog_comment db).

(** [get_object_or_404(User, username=s)]; [None] stands for [Http404]. *)
Definition get_User_or_404 (s : option string) : option User.t :=
  match s with
  | Some s' => find (fun u => String.eqb (User.username u) s') (auth_user db)
  | None => None
  end.
End Queries.

(** ** Ordering

    [('-pub_date', 'title')]: later publication first, equal dates by title
    ascending (code-point order of the text). *)
Definition pub_date_desc_title_asc (p q : Post.t) : bool :=
  (Post.pub_date q <? Post.pub_date p)
  || ((Post.pub_date p =? Post.pub_date q)
      && String.leb (Post.title p) (Post.title q)).

Lemma pub_date_desc_title_asc_total (p q : Post.t) :
  pub_date_desc_title_asc p q = true \/ pub_date_desc_title_asc q p = true.
Proof.
  unfold pub_date_desc_title_asc.
  destruct (Z.ltb_spec (Post.pub_date q) (Post.pub_date p)); [ now left | ].
  destruct (Z.ltb_spec (Post.pub_date p) (Post.pub_date q)); [ now right | ].
  assert (E : Post.pub_date p = Post.pub_date q) by lia.
  rewrite E, Z.eqb_refl. simpl.
  apply String.leb_total.
Qed.

Module PostOrdering <: TotalLeBool.
Definition t := AnnotatedPost.
Definition leb (a b : t) : bool := pub_date_desc_title_asc (post a) (post b).
Definition leb_total (a b : t) : leb a b = true \/ leb b a = true :=
  pub_date_desc_title_asc_total (post a) (post b).
End PostOrdering.

Module PostSort := Sort PostOrdering.

(** [queryset.order_by('-pub_date', 'title')] *)
Definition order_by_pub_date_title (qs : list AnnotatedPost) : list AnnotatedPost :=
  PostSort.sort qs.

(** [Comment.Meta.ordering = ('created_at',)] *)
Lemma created_at_leb_total (a b : Comment.t) :
  (Comment.created_at a <=? Comment.created_at b) = true
  \/ (Comment.created_at b <=? Comment.created_at a) = true.
Proof.
  destruct (Z.leb_spec (Comment.created_at a) (Comment.created_at b));
    [ now left | right; apply Z.leb_le; lia ].
Qed.

Module CommentOrdering <: TotalLeBool.
Definition t := Comment.t.
Definition leb (a b : t) : bool :=
  Comment.created_at a <=? Comment.created_at b.
Definition leb_total (a b : t) : leb a b = true \/ leb b a = true :=
  created_at_leb_total a b.
End CommentOrdering.

Module CommentSort := Sort CommentOrdering.

(** Whether the model's [Meta.ordering] reaches a query that aggregates.
    [annotate(comment_count=Count('comments'))] makes the query a GROUP BY
    query; the framework applied [Meta.ordering] to such queries up to its
    3.0 series and leaves them without an ORDER BY clause from 3.1 on
    (release notes of 3.1, features removed: a model's [Meta.ordering] does
    not affect GROUP BY queries).  The sources do not pin the framework's
    version, so the views take it as a parameter. *)
Inductive Framework :=
| meta_ordering_in_group_by      (* series before 3.1 *)
| no_meta_ordering_in_group_by.  (* 3.1 and later *)

(** The order in which an annotated [Post] queryset with no [order_by] of
    its own evaluates: [Post.Meta.ordering] where it applies, otherwise the
    rows as the store yields them. *)
Definition Meta_ordering (fw : Framework) (qs : list AnnotatedPost)
  : list AnnotatedPost :=
  match fw with
  | meta_ordering_in_group_by => order_by_pub_date_title qs
  | no_meta_ordering_in_group_by => qs
  end.

(** [select_related] over [TABLES_LIST] fetches the related rows in the same
    query (a left join on the nullable keys); it selects no rows out. *)
Definition select_related (qs : list Post.t) : list Post.t := qs.

(** ** [django.core.paginator] *)

Inductive InvalidPage := PageNotAnInteger | EmptyPage.

Record Page (A : Type) := {
  object_list : list A;
  number : Z
}.
Arguments object_list {A} _.
Arguments number {A} _.

Record Paginator (A : Type) := {
  paginator_object_list : list A;
  per_page : Z;
  orphans : Z;
  allow_empty_first_page : bool
}.
Arguments paginator_object_list {A} _.
Arguments per_page {A} _.
Arguments orphans {A} _.
Arguments allow_empty_first_page {A} _.

(** [Paginator(object_list, per_page)] with the constructor's defaults. *)
Definition new_Paginator {A} (l : list A) (n : Z) : Paginator A :=
  {| paginator_object_list := l; per_page := n;
     orphans := 0; allow_empty_first_page := true |}.

Section PaginatorMethods.
Context {A : Type}.
Variable self : Paginator A.

Definition count : Z := Z.of_nat (List.length (paginator_object_list self)).

(** [ceil(hits / self.per_page)] *)
Definition num_pages : Z :=
  if (count =? 0) && negb (allow_empty_first_page self) then 0
  else
    let hits := Z.max 1 (count - orphans self) in
    - ((- hits) / per_page self).

(** The argument is what [int()] is applied to: [None] raises TypeError,
    text that is no integer raises ValueError. *)
Definition validate_number (number : option PageText) : InvalidPage + Z :=
  match number with
  | Some (page_int n) =>
      if n <? 1 then inl EmptyPage
      else if num_pages <? n then
        if (n =? 1) && allow_empty_first_page self then inr n
        else inl EmptyPage
      else inr n
  | _ => inl PageNotAnInteger
  end.

(** [object_list[bottom:top]] for [0 <= bottom] *)
Definition slice (bottom top : Z) : list A :=
  firstn (Z.to_nat (top - bottom))
         (skipn (Z.to_nat bottom) (paginator_object_list self)).

Definition page (number : option PageText) : InvalidPage + Page A :=
  match validate_number number with
  | inl e => inl e
  | inr n =>
      let bottom := (n - 1) * per_page self in
      let top := bottom + per_page self in
      let top := if count <=? top + orphans self then count else top in
      inr {| object_list := slice bottom top; number := n |}
  end.

(** [get_page]: a page for any argument. *)
Definition get_page (number : option PageText) : InvalidPage + Page A :=
  match validate_number number with
  | inr n => page (Some (page_int n))
  | inl PageNotAnInteger => page (Some (page_int 1))
  | inl EmptyPage => page (Some (page_int num_pages))
  end.
End PaginatorMethods.

(** ** The request and the response *)

(** [request.POST]: the submitted fields, by name. *)
Definition QueryDict := list (string * string).

Record HttpRequest := {
  method : Method;
  user : RequestUser;
  kwargs : Kwargs;
  GET_page : option PageText;   (* [request.GET.get('page')] *)
  POST_data : QueryDict
}.

(** What a template is rendered with. *)
Inductive Context :=
| index_context (page_obj : Page AnnotatedPost)
| profile_context (profile : User.t) (page_obj : Page AnnotatedPost)
| category_context (category : Category.t) (page_obj : Page AnnotatedPost)
| detail_context (object : Post.t) (comments : list Comment.t)
| post_form_context (instance : option Post.t)
| comment_form_context (instance : option Comment.t).

Inductive HttpResponse :=
| Http404
| HttpResponseRedirect (to : Url)
| TemplateResponse (template_name : string) (context : Context)
| ServerError.   (* an exception no view handles *)

(** [redirect(DETAIL_URL, post_id=k)]: reversing the route with no id raises
    NoReverseMatch. *)
Definition redirect_DETAIL_URL (k : option Z) : HttpResponse :=
  match k with
  | Some i => HttpResponseRedirect (url_post_detail i)
  | None => ServerError
  end.

(** ** What depends on the framework's series

    The sources do not pin the framework's version, and beside the default
    ordering of aggregating queries two things the views rely on differ
    between its series; the views take them as a parameter. *)
Record Series := {
  (* A lookup by an integer that is no 64-bit key: raises OverflowError,
     which no view handles (the 3.x series on SQLite), or finds no row. *)
  overflow_raises : bool;
  (* [DeleteView.post]: validates the view's [form_class] and deletes on
     valid data only (from 4.0 on), or deletes at once (before 4.0). *)
  delete_validates_form : bool
}.

(** The keys the store can hold. *)
Definition key_fits (k : Z) : bool := (- 2 ^ 63 <=? k) && (k <? 2 ^ 63).

(** The response when a lookup by the key [k] has found no row: not-found,
    or the server error of an unhandled OverflowError for a key the store
    cannot hold. *)
Definition no_row (sr : Series) (k : option Z) : HttpResponse :=
  match k with
  | Some i =>
      if overflow_raises sr && negb (key_fits i) then ServerError else Http404
  | None => Http404
  end.

(** ** Listing and detail views *)

(** [HomePage.queryset] is a class attribute: [datetime.now()] in it is
    evaluated once, when the module is imported; [import_time] is that
    reading of the clock. *)
Definition HomePage_queryset (import_time : Z) (db : Database)
  : list AnnotatedPost :=
  filter (fun r => (Post.pub_date (post r) <=? import_time)
                   && Post.is_published (post r)
                   && category__is_published db (post r))
         (map (annotate db) (select_related (blog_post db))).

(** [MultipleObjectMixin.get_queryset]: the class's queryset, re-evaluated
    on the store, under [HomePage.ordering]. *)
Definition HomePage_get_queryset (import_time : Z) (db : Database)
  : list AnnotatedPost :=
  order_by_pub_date_title (HomePage_queryset import_time db).

(** [MultipleObjectMixin.paginate_queryset]; [None] stands for [Http404]. *)
Definition paginate_queryset {A} (queryset : list A) (page_size : Z)
    (request : HttpRequest) : option (Page A) :=
  let paginator := new_Paginator queryset page_size in
  let page_arg :=
    match GET_page request with
    | None | Some page_empty => page_int 1      (* [... or 1] *)
    | Some t => t
    end in
  let page_number :=
    match page_arg with
    | page_int n => Some n
    | page_last => Some (num_pages paginator)
    | _ => None
    end in
  match page_number with
  | None => None
  | Some n =>
      match page paginator (Some (page_int n)) with
      | inr p => Some p
      | inl _ => None
      end
  end.

Definition HomePage (import_time : Z) (db : Database) (request : HttpRequest)
  : HttpResponse :=
  match paginate_queryset (HomePage_get_queryset import_time db)
                          OBJECTS_PER_PAGE request with
  | None => Http404
  | Some p => TemplateResponse "blog/index.html" (index_context p)
  end.

(** The [posts] queryset of [ProfileView.get_context_data] for the profile
    [object]; [None] stands for the [Http404] of [get_object_or_404]. *)
Definition ProfileView_posts (fw : Framework) (now : Z) (db : Database)
    (viewer : RequestUser) (object : User.t) : option (list AnnotatedPost) :=
  if is_authenticated viewer then
    match get_User_or_404 db (Some (User.username object)) with
    | None => None
    | Some a =>
        Some (Meta_ordering fw
                (filter (fun r => Post.author (post r) =? User.id a)
                        (map (annotate db) (select_related (blog_post db)))))
    end
  else
    match get_User_or_404 db (Some (User.username object)) with
    | None => None
    | Some a =>
        Some (Meta_ordering fw
                (filter (fun r => (Post.author (post r) =? User.id a)
                                  && Post.is_published (post r)
                                  && (Post.pub_date (post r) <=? now))
                        (map (annotate db) (blog_post db))))
    end.

(** The response for a page of an already evaluated listing. *)
Definition render_page {A} (l : list A) (request : HttpRequest)
    (k : Page A -> HttpResponse) : HttpResponse :=
  match get_page (new_Paginator l OBJECTS_PER_PAGE) (GET_page request) with
  | inr p => k p
  | inl _ => ServerError
  end.

Definition ProfileView (fw : Framework) (now : Z) (db : Database)
    (request : HttpRequest) : HttpResponse :=
  match get_User_or_404 db (username (kwargs request)) with
  | None => Http404
  | Some object =>
      match ProfileView_posts fw now db (user request) object with
      | None => Http404
      | Some posts =>
          render_page posts request
            (fun p => TemplateResponse PROFILE_HTML (profile_context object p))
      end
  end.

(** [CategoryListView.queryset] with [SingleObjectMixin.get_object]:
    [Category.objects.filter(is_published=True).filter(slug=s).get()]. *)
Definition CategoryListView_get_object (db : Database) (s : option string)
  : option Category.t :=
  match s with
  | None => None
  | Some s' =>
      find (fun c => String.eqb (Category.slug c) s')
           (filter Category.is_published (blog_category db))
  end.

Definition CategoryListView_posts (fw : Framework) (now : Z) (db : Database)
    (s : option string) : list AnnotatedPost :=
  Meta_ordering fw
    (filter (fun r => category__slug db s (post r)
                      && Post.is_published (post r)
                      && (Post.pub_date (post r) <=? now))
            (map (annotate db) (select_related (blog_post db)))).

Definition CategoryListView (fw : Framework) (now : Z) (db : Database)
    (request : HttpRequest) : HttpResponse :=
  match CategoryListView_get_object db (category_slug (kwargs request)) with
  | None => Http404
  | Some object =>
      render_page
        (CategoryListView_posts fw now db (category_slug (kwargs request)))
        request
        (fun p => TemplateResponse "blog/category.html"
                    (category_context object p))
  end.

(** [self.object.comments.all()] *)
Definition Post_comments (db : Database) (p : Post.t) : list Comment.t :=
  CommentSort.sort
    (filter (fun c => Comment.posts c =? Post.id p) (blog_comment db)).

(** [PostDetailView]: [get_object] looks the primary key up in
    [Post.objects.all()]; the view has no login mixin and no queryset. *)
Definition PostDetailView (sr : Series) (db : Database)
    (request : HttpRequest) : HttpResponse :=
  match get_Post_or_404 db (post_id (kwargs request)) with
  | None => no_row sr (post_id (kwargs request))
  | Some object =>
      TemplateResponse "blog/detail.html"
        (detail_context object (Post_comments db object))
  end.

(** ** Writing to the store *)

(** The primary key an INSERT assigns: above every key in the table. *)
Definition next_pk (ids : list Z) : Z := 1 + fold_right Z.max 0 ids.

Definition Post_with_id (p : Post.t) (i : Z) : Post.t :=
  {| Post.id := i; Post.title := Post.title p; Post.text := Post.text p;
     Post.pub_date := Post.pub_date p; Post.author := Post.author p;
     Post.location := Post.location p; Post.category := Post.category p;
     Post.image := Post.image p; Post.is_published := Post.is_published p;
     Post.created_at := Post.created_at p |}.

(** [instance.author = user] *)
Definition Post_with_author (p : Post.t) (a : Z) : Post.t :=
  {| Post.id := Post.id p; Post.title := Post.title p; Post.text := Post.text p;
     Post.pub_date := Post.pub_date p; Post.author := a;
     Post.location := Post.location p; Post.category := Post.category p;
     Post.image := Post.image p; Post.is_published := Post.is_published p;
     Post.created_at := Post.created_at p |}.

Definition Comment_with_id (c : Comment.t) (i : Z) : Comment.t :=
  {| Comment.id := i; Comment.text := Comment.text c;
     Comment.posts := Comment.posts c;
     Comment.created_at := Comment.created_at c;
     Comment.author := Comment.author c |}.

(** [instance.author = user; instance.posts = post] *)
Definition Comment_with_author_posts (c : Comment.t) (a : Z) (p : Z)
  : Comment.t :=
  {| Comment.id := Comment.id c; Comment.text := Comment.text c;
     Comment.posts := p;
     Comment.created_at := Comment.created_at c;
     Comment.author := a |}.

(** [auto_now_add=True]: the insert stamps the row with the clock. *)
Definition Comment_with_created_at (c : Comment.t) (t : Z) : Comment.t :=
  {| Comment.id := Comment.id c; Comment.text := Comment.text c;
     Comment.posts := Comment.posts c;
     Comment.created_at := t;
     Comment.author := Comment.author c |}.

Definition set_blog_post (db : Database) (l : list Post.t) : Database :=
  {| auth_user := auth_user db; blog_category := blog_category db;
     blog_location := blog_location db; blog_post := l;
     blog_comment := blog_comment db |}.

Definition set_blog_comment (db : Database) (l : list Comment.t) : Database :=
  {| auth_user := auth_user db; blog_category := blog_category db;
     blog_location := blog_location db; blog_post := blog_post db;
     blog_comment := l |}.

(** [save()] of an instance that has no row yet. *)
Definition Post_insert (db : Database) (p : Post.t) : Database * Post.t :=
  let saved := Post_with_id p (next_pk (map Post.id (blog_post db))) in
  (set_blog_post db (blog_post db ++ [saved]), saved).

(** [save()] of an instance loaded from the store. *)
Definition Post_update (db : Database) (p : Post.t) : Database :=
  set_blog_post db
    (map (fun r => if Post.id r =? Post.id p then p else r) (blog_post db)).

(** [delete()]: the row goes, and with it the comments that reference it
    ([on_delete=CASCADE] on [Comment.posts]). *)
Definition Post_delete (db : Database) (p : Post.t) : Database :=
  set_blog_comment
    (set_blog_post db
       (filter (fun r => negb (Post.id r =? Post.id p)) (blog_post db)))
    (filter (fun c => negb (Comment.posts c =? Post.id p)) (blog_comment db)).

Definition Comment_insert (now : Z) (db : Database) (c : Comment.t)
  : Database * Comment.t :=
  let saved :=
    Comment_with_created_at
      (Comment_with_id c (next_pk (map Comment.id (blog_comment db)))) now in
  (set_blog_comment db (blog_comment db ++ [saved]), saved).

Definition Comment_update (db : Database) (c : Comment.t) : Database :=
  set_blog_comment db
    (map (fun r => if Comment.id r =? Comment.id c then c else r)
         (blog_comment db)).

Definition Comment_delete (db : Database) (c : Comment.t) : Database :=
  set_blog_comment db
    (filter (fun r => negb (Comment.id r =? Comment.id c)) (blog_comment db)).

(** ** Views that write *)

(** A view's [dispatch]: the next store and the response. *)
Definition View := Database -> HttpRequest -> Database * HttpResponse.

(** [LoginRequiredMixin.dispatch] *)
Definition LoginRequiredMixin_dispatch (super_dispatch : View) : View :=
  fun db request =>
    if is_authenticated (user request) then super_dispatch db request
    else (db, HttpResponseRedirect url_login).

(** [PostEditMixin.dispatch]; [super_dispatch] is [super().dispatch]. *)
Definition PostEditMixin_dispatch (sr : Series) (super_dispatch : View)
  : View :=
  fun db request =>
    match get_Post_or_404 db (post_id (kwargs request)) with
    | None => (db, no_row sr (post_id (kwargs request)))
    | Some instance =>
        if author_ne (Post.author instance) (user request) then
          (db, redirect_DETAIL_URL (post_id (kwargs request)))
        else super_dispatch db request
    end.

(** [CommentEditMixin.dispatch] *)
Definition CommentEditMixin_dispatch (sr : Series) (super_dispatch : View)
  : View :=
  fun db request =>
    match get_Comment_or_404 db (comment_id (kwargs request)) with
    | None => (db, no_row sr (comment_id (kwargs request)))
    | Some instance =>
        if author_ne (Comment.author instance) (user request) then
          (db, redirect_DETAIL_URL (post_id (kwargs request)))
        else super_dispatch db request
    end.

Section Forms.
(** [blog/forms.py] is not among the sources, so the two model forms are
    parameters.  [PostForms data instance] is the form bound to the
    submitted [data] and to [instance] ([None] when a new row is being
    made): [None] when [is_valid()] fails, otherwise [form.instance] with
    the cleaned fields written into it.  Nothing is assumed about which
    fields a form carries. *)
Variable sr : Series.
Variable PostForms : QueryDict -> option Post.t -> option Post.t.
Variable CommentForm : QueryDict -> option Comment.t -> option Comment.t.

(** [UpdateView] on [Post]: [get_object] by [pk_url_kwarg], the form on
    GET, [form.save()] and the redirect to [get_absolute_url()] on a valid
    POST.  The primary key is not a form field. *)
Definition Post_UpdateView : View :=
  fun db request =>
    match get_Post_or_404 db (post_id (kwargs request)) with
    | None => (db, no_row sr (post_id (kwargs request)))
    | Some object =>
        match method request with
        | GET =>
            (db, TemplateResponse "blog/create.html"
                   (post_form_context (Some object)))
        | POST =>
            match PostForms (POST_data request) (Some object) with
            | None =>
                (db, TemplateResponse "blog/create.html"
                       (post_form_context (Some object)))
            | Some instance =>
                let saved := Post_with_id instance (Post.id object) in
                (Post_update db saved,
                 HttpResponseRedirect (url_post_detail (Post.id saved)))
            end
        end
    end.

(** The page [PostDeleteView] renders, with
    [PostDeleteView.get_context_data]: the form filled from the instance of
    [get_object_or_404(Post, id=self.object.id)]. *)
Definition PostDeleteView_render (db : Database) (object : Post.t)
  : Database * HttpResponse :=
  match get_Post_or_404 db (Some (Post.id object)) with
  | None => (db, no_row sr (Some (Post.id object)))
  | Some instance =>
      (db, TemplateResponse "blog/create.html"
             (post_form_context (Some instance)))
  end.

(** [DeleteView] on [Post] with [success_url = reverse_lazy('blog:index')].
    Before 4.0 a POST deletes.  From 4.0 on [DeleteView] is a form view: a
    POST binds the view's [form_class], here [PostForms] of
    [PostCreateMixin], to the submitted data, with no instance, and deletes
    when the form is valid; otherwise the page is rendered again. *)
Definition Post_DeleteView : View :=
  fun db request =>
    match get_Post_or_404 db (post_id (kwargs request)) with
    | None => (db, no_row sr (post_id (kwargs request)))
    | Some object =>
        match method request with
        | GET => PostDeleteView_render db object
        | POST =>
            if delete_validates_form sr then
              match PostForms (POST_data request) None with
              | Some _ =>
                  (Post_delete db object, HttpResponseRedirect url_index)
              | None => PostDeleteView_render db object
              end
            else (Post_delete db object, HttpResponseRedirect url_index)
        end
    end.

Definition PostEditView : View :=
  PostEditMixin_dispatch sr (LoginRequiredMixin_dispatch Post_UpdateView).

Definition PostDeleteView : View :=
  PostEditMixin_dispatch sr (LoginRequiredMixin_dispatch Post_DeleteView).

(** [PostCreatView]: [form_valid] sets the author, then
    [super().form_valid] saves the instance. *)
Definition PostCreatView : View :=
  LoginRequiredMixin_dispatch
    (fun db request =>
       match method request with
       | GET =>
           (db, TemplateResponse "blog/create.html" (post_form_context None))
       | POST =>
           match PostForms (POST_data request) None with
           | None =>
               (db, TemplateResponse "blog/create.html"
                      (post_form_context None))
           | Some instance =>
               match user request with
               | AnonymousUser => (db, ServerError)
               | LoggedIn u =>
                   let (db', _) :=
                     Post_insert db (Post_with_author instance (User.id u)) in
                   (db', HttpResponseRedirect (url_profile (User.username u)))
               end
           end
       end).

(** [CommentCreateView]: [dispatch] resolves [self.posts] from the URL
    before the login check; [form_valid] sets author and post. *)
Definition CommentCreateView (now : Z) : View :=
  fun db request =>
    match get_Post_or_404 db (post_id (kwargs request)) with
    | None => (db, no_row sr (post_id (kwargs request)))
    | Some posts =>
        LoginRequiredMixin_dispatch
          (fun db request =>
             match method request with
             | GET =>
                 (db, TemplateResponse "blog/comment.html"
                        (comment_form_context None))
             | POST =>
                 match CommentForm (POST_data request) None with
                 | None =>
                     (db, TemplateResponse "blog/comment.html"
                            (comment_form_context None))
                 | Some instance =>
                     match user request with
                     | AnonymousUser => (db, ServerError)
                     | LoggedIn u =>
                         let (db', _) :=
                           Comment_insert now db
                             (Comment_with_author_posts
                                instance (User.id u) (Post.id posts)) in
                         (db', HttpResponseRedirect
                                 (url_post_detail (Post.id posts)))
                     end
                 end
             end) db request
    end.

(** [UpdateView] on [Comment] with [CommentEditMixin.get_success_url]. *)
Definition Comment_UpdateView : View :=
  fun db request =>
    match get_Comment_or_404 db (comment_id (kwargs request)) with
    | None => (db, no_row sr (comment_id (kwargs request)))
    | Some object =>
        match method request with
        | GET =>
            (db, TemplateResponse "blog/comment.html"
                   (comment_form_context (Some object)))
        | POST =>
            match CommentForm (POST_data request) (Some object) with
            | None =>
                (db, TemplateResponse "blog/comment.html"
                       (comment_form_context (Some object)))
            | Some instance =>
                let saved := Comment_with_id instance (Comment.id object) in
                (Comment_update db saved,
                 HttpResponseRedirect (url_post_detail (Comment.posts saved)))
            end
        end
    end.

(** [DeleteView] on [Comment] with [CommentEditMixin.get_success_url].
    Before 4.0 a POST deletes; from 4.0 on a POST binds the view's
    [form_class], here [CommentForm] of [CommentMixin], to the submitted
    data, with no instance, and deletes when the form is valid; otherwise
    the page is rendered again. *)
Definition Comment_DeleteView : View :=
  fun db request =>
    match get_Comment_or_404 db (comment_id (kwargs request)) with
    | None => (db, no_row sr (comment_id (kwargs request)))
    | Some object =>
        match method request with
        | GET =>
            (db, TemplateResponse "blog/comment.html"
                   (comment_form_context (Some object)))
        | POST =>
            if delete_validates_form sr then
              match CommentForm (POST_data request) None with
              | Some _ =>
                  (Comment_delete db object,
                   HttpResponseRedirect
                     (url_post_detail (Comment.posts object)))
              | None =>
                  (db, TemplateResponse "blog/comment.html"
                         (comment_form_context (Some object)))
              end
            else
              (Comment_delete db object,
               HttpResponseRedirect (url_post_detail (Comment.posts object)))
        end
    end.

Definition EditComment : View :=
  CommentEditMixin_dispatch sr
    (LoginRequiredMixin_dispatch Comment_UpdateView).

Definition CommentDeleteView : View :=
  CommentEditMixin_dispatch sr
    (LoginRequiredMixin_dispatch Comment_DeleteView).
End Forms.

(** ** What the specification says

    The visibility rule in the words of the specification (sections 3, 4.1
    and 8), to compare the views with. *)
Definition spec_live (db : Database) (now : Z) (P : Post.t) : bool :=
  Post.is_published P
  && (Post.pub_date P <=? now)
  && match Post.category P with
     | None => true
     | Some _ => category__is_published db P
     end.

(** The order the specification gives every listing. *)
Definition spec_ordered (l : list AnnotatedPost) : Prop :=
  Sorted (fun a b => pub_date_desc_title_asc (post a) (post b) = true) l.

(** [P] is among the rows of a listing. *)
Definition appears (P : Post.t) (l : list AnnotatedPost) : Prop :=
  In P (map post l).

(** [x] is on one of the pages the paginator cuts [l] into. *)
Definition on_a_page {A} (l : list A) (x : A) : Prop :=
  exists n pg,
    page (new_Paginator l OBJECTS_PER_PAGE) (Some (page_int n)) = inr pg
    /\ In x (object_list pg).

(** [P] is listed on the homepage: some request for it is answered with a
    page that shows [P]. *)
Definition HomePage_lists (import_time : Z) (db : Database) (P : Post.t)
  : Prop :=
  exists request pg,
    HomePage import_time db request
    = TemplateResponse "blog/index.html" (index_context pg)
    /\ appears P (object_list pg).

(** [P] is listed to [viewer] on the profile page of the user named
    [name]. *)
Definition ProfileView_lists (fw : Framework) (now : Z) (db : Database)
    (viewer : RequestUser) (name : string) (P : Post.t) : Prop :=
  exists request profile pg,
    user request = viewer
    /\ username (kwargs request) = Some name
    /\ ProfileView fw now db request
       = TemplateResponse PROFILE_HTML (profile_context profile pg)
    /\ appears P (object_list pg).

(** A page number no page of the listing has. *)
Definition out_of_range {A} (l : list A) (n : Z) : Prop :=
  n < 1 \/ num_pages (new_Paginator l OBJECTS_PER_PAGE) < n.

(** The last page of a listing. *)
Definition last_page {A} (l : list A) : InvalidPage + Page A :=
  let paginator := new_Paginator l OBJECTS_PER_PAGE in
  page paginator (Some (page_int (num_pages paginator))).

(** The [page_obj] a listing response carries. *)
Definition page_obj_of (r : HttpResponse) : option (Page AnnotatedPost) :=
  match r with
  | TemplateResponse _ (index_context pg)
  | TemplateResponse _ (profile_context _ pg)
  | TemplateResponse _ (category_context _ pg) => Some pg
  | _ => None
  end.

(** [P] is listed on the page of the category with slug [s]. *)
Definition CategoryListView_lists (fw : Framework) (now : Z) (db : Database)
    (s : string) (P : Post.t) : Prop :=
  exists request category pg,
    category_slug (kwargs request) = Some s
    /\ CategoryListView fw now db request
       = TemplateResponse "blog/category.html" (category_context category pg)
    /\ appears P (object_list pg).

(** The rows of page [n] of a listing; no rows where there is no page. *)
Definition page_rows {A} (l : list A) (n : nat) : list A :=
  match page (new_Paginator l OBJECTS_PER_PAGE)
             (Some (page_int (Z.of_nat n))) with
  | inr pg => object_list pg
  | inl _ => []
  end.

(** The pages of a listing, first to last. *)
Definition all_pages {A} (l : list A) : list (list A) :=
  map (page_rows l)
      (seq 1 (Z.to_nat (num_pages (new_Paginator l OBJECTS_PER_PAGE)))).

(** The primary keys of posts and of comments are unique. *)
Definition keys_unique (db : Database) : Prop :=
  NoDup (map Post.id (blog_post db))
  /\ NoDup (map Comment.id (blog_comment db)).

(** Every comment is on a post of the store. *)
Definition comments_reference_posts (db : Database) : Prop :=
  forall c, In c (blog_comment db) ->
            In (Comment.posts c) (map Post.id (blog_post db)).

(** One request served by one of the views that write: the store before and
    the store after. *)
Inductive serves (sr : Series)
    (PostForms : QueryDict -> option Post.t -> option Post.t)
    (CommentForm : QueryDict -> option Comment.t -> option Comment.t)
  : Database -> Database -> Prop :=
| serves_PostCreatView db request :
    serves sr PostForms CommentForm db
           (fst (PostCreatView PostForms db request))
| serves_PostEditView db request :
    serves sr PostForms CommentForm db
           (fst (PostEditView sr PostForms db request))
| serves_PostDeleteView db request :
    serves sr PostForms CommentForm db
           (fst (PostDeleteView sr PostForms db request))
| serves_CommentCreateView now db request :
    serves sr PostForms CommentForm db
           (fst (CommentCreateView sr CommentForm now db request))
| serves_EditComment db request :
    serves sr PostForms CommentForm db
           (fst (EditComment sr CommentForm db request))
| serves_CommentDeleteView db request :
    serves sr PostForms CommentForm db
           (fst (CommentDeleteView sr CommentForm db request)).

(** ** A small store to evaluate the views on *)

Module Sample.
Definition alice : User.t := {| User.id := 1; User.username := "alice" |}.
Definition bob : User.t := {| User.id := 2; User.username := "bob" |}.

Definition travel : Category.t :=
  {| Category.id := 1; Category.title := "Travel";
     Category.description := ""; Category.slug := "travel";
     Category.is_published := true; Category.created_at := 1 |}.
Definition hidden : Category.t :=
  {| Category.id := 2; Category.title := "Hidden";
     Category.description := ""; Category.slug := "hidden";
     Category.is_published := false; Category.created_at := 2 |}.

Definition mk_post (i : Z) (t : string) (d : Z) (a : Z) (c : option Z)
    (pub : bool) : Post.t :=
  {| Post.id := i; Post.title := t; Post.text := ""; Post.pub_date := d;
     Post.author := a; Post.location := None; Post.category := c;
     Post.image := ""; Post.is_published := pub; Post.created_at := d |}.

(** In storage order: an older post, a newer one, a draft, a post dated
    ahead, a post without category, a post in the unpublished category. *)
Definition older := mk_post 1 "Older" 100 1 (Some 1) true.
Definition newer := mk_post 2 "Newer" 150 1 (Some 1) true.
Definition draft := mk_post 3 "Draft" 110 1 (Some 1) false.
Definition ahead := mk_post 4 "Ahead" 1000 1 (Some 1) true.
Definition uncategorised := mk_post 5 "Plain" 120 1 None true.
Definition in_hidden := mk_post 6 "Veiled" 130 1 (Some 2) true.

Definition remark : Comment.t :=
  {| Comment.id := 1; Comment.text := "hello"; Comment.posts := 1;
     Comment.created_at := 160; Comment.author := 1 |}.

Definition db : Database :=
  {| auth_user := [alice; bob];
     blog_category := [travel; hidden];
     blog_location := [];
     blog_post := [older; newer; draft; ahead; uncategorised; in_hidden];
     blog_comment := [remark] |}.

Definition now : Z := 200.

Definition no_kwargs : Kwargs :=
  {| post_id := None; comment_id := None;
     category_slug := None; username := None |}.

Definition kw_username (s : string) : Kwargs :=
  {| post_id := None; comment_id := None;
     category_slug := None; username := Some s |}.

Definition kw_category_slug (s : string) : Kwargs :=
  {| post_id := None; comment_id := None;
     category_slug := Some s; username := None |}.

Definition kw_post_id (i : Z) : Kwargs :=
  {| post_id := Some i; comment_id := None;
     category_slug := None; username := None |}.

(** The route of the comment views carries both ids. *)
Definition kw_comment_id (i j : Z) : Kwargs :=
  {| post_id := Some i; comment_id := Some j;
     category_slug := None; username := None |}.

Definition get (u : RequestUser) (kw : Kwargs) (pg : option PageText)
  : HttpRequest :=
  {| method := GET; user := u; kwargs := kw; GET_page := pg;
     POST_data := [] |}.

Definition post_ (u : RequestUser) (kw : Kwargs) (data : QueryDict)
  : HttpRequest :=
  {| method := POST; user := u; kwargs := kw; GET_page := None;
     POST_data := data |}.

(** Twenty-five live posts of one author in one published category. *)
Definition live (i : nat) : Post.t :=
  mk_post (Z.of_nat i) "Post" (Z.of_nat i) 1 (Some 1) true.

Definition db25 : Database :=
  {| auth_user := [alice; bob];
     blog_category := [travel];
     blog_location := [];
     blog_post := map live (seq 1 25);
     blog_comment := [] |}.
(** A post form that carries an author field, filled in with bob's key. *)
Definition form_naming_bob (data : QueryDict) (instance : option Post.t)
  : option Post.t :=
  Some (mk_post 0 "Mine" 10 (User.id bob) (Some 1) true).

(** A comment form that accepts nothing. *)
Definition no_comment_form (data : QueryDict) (instance : option Comment.t)
  : option Comment.t := None.

(** The two series the views are evaluated on: the 3.x series on SQLite
    and a series from 4.0 on that finds no row for a key beyond the
    store's. *)
Definition series_3 : Series :=
  {| overflow_raises := true; delete_validates_form := false |}.
Definition series_5 : Series :=
  {| overflow_raises := false; delete_validates_form := true |}.
End Sample.

(** A store with a thread of comments: two on the older post, entered the
    later one first, and between them one on the newer post. *)
Module Thread.
Definition late : Comment.t :=
  {| Comment.id := 1; Comment.text := "second"; Comment.posts := 1;
     Comment.created_at := 300; Comment.author := 2 |}.
Definition elsewhere : Comment.t :=
  {| Comment.id := 2; Comment.text := "aside"; Comment.posts := 2;
     Comment.created_at := 200; Comment.author := 1 |}.
Definition early : Comment.t :=
  {| Comment.id := 3; Comment.text := "first"; Comment.posts := 1;
     Comment.created_at := 100; Comment.author := 1 |}.

Definition db : Database :=
  {| auth_user := [Sample.alice; Sample.bob];
     blog_category := [Sample.travel];
     blog_location := [];
     blog_post := [Sample.older; Sample.newer];
     blog_comment := [late; elsewhere; early] |}.
End Thread.

(** * Properties *)

(** ** Rows of a queryset *)

Lemma appears_filter_annotate (db : Database) (f : AnnotatedPost -> bool)
    (l : list Post.t) (P : Post.t) :
  appears P (filter f (map (annotate db) l))
  <-> In P l /\ f (annotate db P) = true.
Proof.
  unfold appears. rewrite in_map_iff. split.
  - intros [r [E H]]. apply filter_In in H. destruct H as [H Hf].
    apply in_map_iff in H. destruct H as [q [Eq Hq]].
    subst r. simpl in E. subst q. now split.
  - intros [H Hf]. exists (annotate db P). split; [ reflexivity | ].
    apply filter_In. split; [ now apply in_map | exact Hf ].
Qed.

Lemma appears_order_by (P : Post.t) (l : list AnnotatedPost) :
  appears P (order_by_pub_date_title l) <-> appears P l.
Proof.
  unfold appears, order_by_pub_date_title.
  pose proof (Permutation_map post (PostSort.Permuted_sort l)) as Hp.
  split; intro H.
  - eapply Permutation_in; [ apply Permutation_sym; exact Hp | exact H ].
  - eapply Permutation_in; [ exact Hp | exact H ].
Qed.

Lemma appears_Meta_ordering (fw : Framework) (P : Post.t)
    (l : list AnnotatedPost) :
  appears P (Meta_ordering fw l) <-> appears P l.
Proof.
  destruct fw; simpl; [ apply appears_order_by | tauto ].
Qed.

Lemma order_by_spec_ordered (l : list AnnotatedPost) :
  spec_ordered (order_by_pub_date_title l).
Proof.
  unfold spec_ordered, order_by_pub_date_title.
  pose proof (PostSort.Sorted_sort l) as H.
  induction H as [ | a m Hm IH Hd ]; constructor; [ exact IH | ].
  destruct Hd; constructor. assumption.
Qed.

(** The join of [category__is_published] succeeds exactly when the post has
    a category row and that row is published. *)
Lemma category__is_published_iff (db : Database) (P : Post.t) :
  category__is_published db P = true
  <-> exists c, Post_category db P = Some c /\ Category.is_published c = true.
Proof.
  unfold category__is_published.
  destruct (Post_category db P) as [c | ].
  - split; [ intro H; now exists c | intros [c' [E H]]; congruence ].
  - split; [ discriminate | intros [c' [E _]]; discriminate ].
Qed.

(** The rows of the homepage queryset. *)
Lemma HomePage_get_queryset_rows (import_time : Z) (db : Database)
    (P : Post.t) :
  appears P (HomePage_get_queryset import_time db)
  <-> In P (blog_post db)
      /\ Post.pub_date P <= import_time
      /\ Post.is_published P = true
      /\ category__is_published db P = true.
Proof.
  unfold HomePage_get_queryset, HomePage_queryset, select_related.
  rewrite appears_order_by, appears_filter_annotate. simpl.
  rewrite !andb_true_iff, Z.leb_le. tauto.
Qed.

(** ** The paginator *)

Section PaginatorFacts.
Context {A : Type}.
Variable l : list A.
Variable p : Z.
Hypothesis p_pos : 0 < p.

Local Abbreviation P := (new_Paginator l p).

Lemma count_new : count P = Z.of_nat (List.length l).
Proof. reflexivity. Qed.

(** [num_pages] is the ceiling of [max 1 count / per_page]. *)
Lemma num_pages_bounds :
  (num_pages P - 1) * p < Z.max 1 (count P) <= num_pages P * p.
Proof.
  unfold num_pages. simpl. rewrite andb_false_r.
  unfold count. simpl. rewrite Z.sub_0_r.
  set (h := Z.max 1 (Z.of_nat (List.length l))).
  pose proof (Z.mul_div_le (- h) p p_pos).
  pose proof (Z.mul_succ_div_gt (- h) p p_pos).
  lia.
Qed.

Lemma num_pages_pos : 1 <= num_pages P.
Proof. pose proof num_pages_bounds. nia. Qed.

Lemma validate_number_in_range (n : Z) :
  1 <= n <= num_pages P -> validate_number P (Some (page_int n)) = inr n.
Proof.
  intros [H1 H2]. unfold validate_number.
  destruct (Z.ltb_spec n 1); [ lia | ].
  destruct (Z.ltb_spec (num_pages P) n); [ lia | reflexivity ].
Qed.

Lemma validate_number_out_of_range (n : Z) :
  n < 1 \/ num_pages P < n ->
  validate_number P (Some (page_int n)) = inl EmptyPage.
Proof.
  intros H. unfold validate_number.
  destruct (Z.ltb_spec n 1); [ reflexivity | ].
  destruct (Z.ltb_spec (num_pages P) n); [ | lia ].
  destruct (Z.eqb_spec n 1); [ | reflexivity ].
  pose proof num_pages_pos. lia.
Qed.

(** The rows of page [n]: from [(n-1) * per_page] up to the next multiple
    of [per_page] or the end of the list. *)
Lemma page_in_range (n : Z) :
  1 <= n <= num_pages P ->
  page P (Some (page_int n))
  = inr {| object_list :=
             slice P ((n - 1) * p) (Z.min (count P) ((n - 1) * p + p));
           number := n |}.
Proof.
  intros H. unfold page. rewrite (validate_number_in_range n H).
  simpl. rewrite Z.add_0_r.
  destruct (Z.leb_spec (count (new_Paginator l p)) ((n - 1) * p + p)).
  - now rewrite Z.min_l by lia.
  - now rewrite Z.min_r by lia.
Qed.

Lemma slice_incl (b t : Z) (x : A) : In x (slice P b t) -> In x l.
Proof.
  unfold slice. simpl. intros H.
  set (k := Z.to_nat b) in *. set (m := Z.to_nat (t - b)) in *.
  rewrite <- (firstn_skipn k l). apply in_or_app. right.
  rewrite <- (firstn_skipn m (skipn k l)). apply in_or_app. now left.
Qed.

(** A page holds rows of the list only. *)
Lemma page_incl (arg : option PageText) (pg : Page A) (x : A) :
  page P arg = inr pg -> In x (object_list pg) -> In x l.
Proof.
  unfold page. destruct (validate_number P arg) as [e | n]; [ discriminate | ].
  intros E. injection E as <-. simpl. apply slice_incl.
Qed.

(** And every row of the list is on a page. *)
Lemma row_on_a_page (x : A) :
  In x l ->
  exists n pg, page P (Some (page_int n)) = inr pg /\ In x (object_list pg).
Proof.
  intros H. apply In_nth_error in H. destruct H as [i Hi].
  assert (Hlt : (i < List.length l)%nat)
    by (apply nth_error_Some; congruence).
  set (z := Z.of_nat i).
  set (n := z / p + 1).
  pose proof (Z.mul_div_le z p p_pos) as Hlo.
  pose proof (Z.mul_succ_div_gt z p p_pos) as Hhi.
  pose proof num_pages_bounds as Hb. rewrite count_new in Hb.
  assert (Hz : 0 <= z / p) by (apply Z.div_pos; lia).
  assert (Hn : 1 <= n <= num_pages P) by (subst n; nia).
  exists n. eexists. split; [ apply page_in_range; exact Hn | ].
  simpl. unfold slice. simpl. rewrite count_new.
  apply (nth_error_In _ (i - Z.to_nat ((n - 1) * p))).
  rewrite nth_error_firstn, nth_error_skipn.
  replace (Z.to_nat ((n - 1) * p) + (i - Z.to_nat ((n - 1) * p)))%nat
    with i by (subst n z; lia).
  destruct (Nat.ltb_spec (i - Z.to_nat ((n - 1) * p))
              (Z.to_nat (Z.min (Z.of_nat (List.length l))
                               ((n - 1) * p + p) - (n - 1) * p)));
    [ exact Hi | subst n z; lia ].
Qed.

(** [get_page] answers every argument with a page. *)
Lemma get_page_total (arg : option PageText) :
  exists pg, get_page P arg = inr pg.
Proof.
  pose proof num_pages_pos as Hp.
  unfold get_page.
  destruct (validate_number P arg) as [[ | ] | n] eqn:E.
  - rewrite page_in_range by lia. eauto.
  - rewrite page_in_range by lia. eauto.
  - assert (Hn : 1 <= n <= num_pages P).
    { unfold validate_number in E.
      destruct arg as [[m | | | ] | ]; try discriminate.
      destruct (Z.ltb_spec m 1); [ discriminate | ].
      destruct (Z.ltb_spec (num_pages P) m).
      - destruct (Z.eqb_spec m 1); simpl in E; [ | discriminate ].
        injection E as <-. lia.
      - injection E as <-. lia. }
    rewrite page_in_range by exact Hn. eauto.
Qed.

(** An integer outside [1 .. num_pages], below or above, gets the last
    page. *)
Lemma get_page_out_of_range (n : Z) :
  n < 1 \/ num_pages P < n ->
  get_page P (Some (page_int n)) = page P (Some (page_int (num_pages P)))
  /\ exists pg, page P (Some (page_int (num_pages P))) = inr pg
                /\ number pg = num_pages P.
Proof.
  intros H. unfold get_page.
  rewrite (validate_number_out_of_range n H). split; [ reflexivity | ].
  pose proof num_pages_pos.
  rewrite page_in_range by lia. eexists. split; reflexivity.
Qed.

Lemma get_page_in_range (n : Z) :
  1 <= n <= num_pages P ->
  get_page P (Some (page_int n)) = page P (Some (page_int n)).
Proof.
  intros H. unfold get_page. now rewrite validate_number_in_range.
Qed.
End PaginatorFacts.

Lemma on_a_page_iff {A} (l : list A) (x : A) : on_a_page l x <-> In x l.
Proof.
  unfold on_a_page, OBJECTS_PER_PAGE. split.
  - intros [n [pg [E H]]]. eapply page_incl; eassumption.
  - apply row_on_a_page. lia.
Qed.

(** ** Lookups by a unique key *)

Lemma find_unique_key {A K} (key : A -> K) (f : A -> bool) (l : list A)
    (x : A) :
  (forall y, f y = true <-> key y = key x) ->
  NoDup (map key l) -> In x l -> find f l = Some x.
Proof.
  intros Hf. induction l as [ | y l IH ]; simpl; [ tauto | ].
  intros Hnd Hin. inversion Hnd as [ | ? ? Hy Hl ]; subst.
  destruct Hin as [-> | Hin].
  - assert (E : f x = true) by now apply Hf.
    now rewrite E.
  - destruct (f y) eqn:E.
    + apply Hf in E. exfalso. apply Hy. rewrite E. now apply in_map.
    + now apply IH.
Qed.

Lemma get_User_or_404_unique (db : Database) (U : User.t) :
  NoDup (map User.username (auth_user db)) -> In U (auth_user db) ->
  get_User_or_404 db (Some (User.username U)) = Some U.
Proof.
  intros Hnd Hin. unfold get_User_or_404.
  apply (find_unique_key User.username); try assumption.
  intro y. apply String.eqb_eq.
Qed.

Lemma get_Post_or_404_unique (db : Database) (P : Post.t) :
  NoDup (map Post.id (blog_post db)) -> In P (blog_post db) ->
  get_Post_or_404 db (Some (Post.id P)) = Some P.
Proof.
  intros Hnd Hin. unfold get_Post_or_404.
  apply (find_unique_key Post.id); try assumption.
  intro y. simpl. rewrite Z.eqb_eq. split; congruence.
Qed.

(** What a lookup finds carries the key that was asked for. *)
Lemma get_Post_or_404_id (db : Database) (k : option Z) (P : Post.t) :
  get_Post_or_404 db k = Some P -> In P (blog_post db) /\ k = Some (Post.id P).
Proof.
  unfold get_Post_or_404. intros H. apply find_some in H.
  destruct H as [Hin E]. split; [ exact Hin | ].
  destruct k as [z | ]; simpl in E; [ | discriminate ].
  apply Z.eqb_eq in E. now subst.
Qed.

Lemma get_Comment_or_404_id (db : Database) (k : option Z) (C : Comment.t) :
  get_Comment_or_404 db k = Some C ->
  In C (blog_comment db) /\ k = Some (Comment.id C).
Proof.
  unfold get_Comment_or_404. intros H. apply find_some in H.
  destruct H as [Hin E]. split; [ exact Hin | ].
  destruct k as [z | ]; simpl in E; [ | discriminate ].
  apply Z.eqb_eq in E. now subst.
Qed.

(** ** Pages of the views *)

Lemma paginate_queryset_page {A} (qs : list A) (request : HttpRequest)
    (pg : Page A) :
  paginate_queryset qs OBJECTS_PER_PAGE request = Some pg ->
  exists n, page (new_Paginator qs OBJECTS_PER_PAGE) (Some (page_int n))
            = inr pg.
Proof.
  unfold paginate_queryset.
  destruct (GET_page request) as [[n | | | ] | ]; try discriminate.
  - destruct (page _ (Some (page_int n))) eqn:E; [ discriminate | ].
    intros H. injection H as <-. now exists n.
  - destruct (page _ (Some (page_int (num_pages _)))) eqn:E;
      [ discriminate | ].
    intros H. injection H as <-. eauto.
  - destruct (page _ (Some (page_int 1))) eqn:E; [ discriminate | ].
    intros H. injection H as <-. now exists 1.
  - destruct (page _ (Some (page_int 1))) eqn:E; [ discriminate | ].
    intros H. injection H as <-. now exists 1.
Qed.

Lemma get_page_page {A} (l : list A) (arg : option PageText) (pg : Page A) :
  get_page (new_Paginator l OBJECTS_PER_PAGE) arg = inr pg ->
  exists n, page (new_Paginator l OBJECTS_PER_PAGE) (Some (page_int n))
            = inr pg.
Proof.
  unfold get_page.
  destruct (validate_number _ arg) as [[ | ] | n]; intros H; eauto.
Qed.

(** The homepage lists exactly the rows of its queryset. *)
Lemma HomePage_lists_iff (import_time : Z) (db : Database) (P : Post.t) :
  HomePage_lists import_time db P
  <-> appears P (HomePage_get_queryset import_time db).
Proof.
  unfold HomePage_lists, HomePage. split.
  - intros [request [pg [E H]]].
    destruct (paginate_queryset _ _ request) as [pg' | ] eqn:Ep;
      [ | discriminate ].
    injection E as <-.
    apply paginate_queryset_page in Ep. destruct Ep as [n Ep].
    unfold appears in *. apply in_map_iff in H. destruct H as [r [<- Hr]].
    apply in_map. eapply page_incl; eassumption.
  - intros H. unfold appears in H. apply in_map_iff in H.
    destruct H as [r [<- Hr]].
    apply on_a_page_iff in Hr. destruct Hr as [n [pg [E Hr]]].
    exists {| method := GET; user := AnonymousUser;
              kwargs := {| post_id := None; comment_id := None;
                           category_slug := None; username := None |};
              GET_page := Some (page_int n); POST_data := [] |}, pg.
    unfold paginate_queryset. simpl. rewrite E.
    split; [ reflexivity | now apply in_map ].
Qed.

(** ** The homepage listing *)

(** C1, as stated, fails: a published post dated in the past whose category
    is null satisfies the rule of the specification, and the homepage,
    asked at the very moment its queryset was built, does not list it. *)
Lemma C1_uncategorised_post_not_listed :
  In Sample.uncategorised (blog_post Sample.db)
  /\ spec_live Sample.db Sample.now Sample.uncategorised = true
  /\ ~ HomePage_lists Sample.now Sample.db Sample.uncategorised.
Proof.
  split; [ simpl; tauto | ]. split; [ reflexivity | ].
  rewrite HomePage_lists_iff, HomePage_get_queryset_rows.
  intros [_ [_ [_ H]]]. discriminate H.
Qed.

(** C1, amended: a post of the store whose publication date does not fall
    between the clock reading held by the homepage queryset and now is
    listed on the homepage if and only if it is published, its publication
    date is not after now, and it has a category that is published. *)
Theorem C1_homepage_lists_live_categorised_posts
    (import_time now : Z) (db : Database) (P : Post.t) :
  import_time <= now ->
  Post.pub_date P <= import_time \/ now < Post.pub_date P ->
  (HomePage_lists import_time db P
   <-> In P (blog_post db)
       /\ Post.is_published P = true
       /\ Post.pub_date P <= now
       /\ exists c, Post_category db P = Some c
                    /\ Category.is_published c = true).
Proof.
  intros Hclock Hdate.
  rewrite HomePage_lists_iff, HomePage_get_queryset_rows.
  rewrite category__is_published_iff.
  split.
  - intros [Hin [Hd [Hp Hc]]]. repeat split; try assumption. lia.
  - intros [Hin [Hp [Hd Hc]]]. repeat split; try assumption. lia.
Qed.

Lemma C1_homepage_lists_live_categorised_posts_witness :
  100 <= 200
  /\ (Post.pub_date Sample.older <= 100 \/ 200 < Post.pub_date Sample.older)
  /\ (HomePage_lists 100 Sample.db Sample.older
      <-> In Sample.older (blog_post Sample.db)
          /\ Post.is_published Sample.older = true
          /\ Post.pub_date Sample.older <= 200
          /\ exists c, Post_category Sample.db Sample.older = Some c
                       /\ Category.is_published c = true).
Proof.
  split; [ lia | ]. split; [ left; simpl; lia | ].
  apply (C1_homepage_lists_live_categorised_posts 100 200 Sample.db Sample.older);
    [ lia | left; simpl; lia ].
Defined.

(** ** The profile listing *)

Lemma page_get_page {A} (l : list A) (n : Z) (pg : Page A) :
  page (new_Paginator l OBJECTS_PER_PAGE) (Some (page_int n)) = inr pg ->
  get_page (new_Paginator l OBJECTS_PER_PAGE) (Some (page_int n)) = inr pg.
Proof.
  unfold get_page, page.
  destruct (validate_number _ (Some (page_int n))) as [e | m] eqn:E;
    [ discriminate | ].
  assert (m = n) as ->.
  { unfold validate_number in E.
    destruct (n <? 1); [ discriminate | ].
    destruct (_ <? n); [ | congruence ].
    destruct (_ && _); [ congruence | discriminate ]. }
  now rewrite E.
Qed.

(** The profile page of a user lists exactly the rows of [posts]. *)
Lemma ProfileView_lists_iff (fw : Framework) (now : Z) (db : Database)
    (viewer : RequestUser) (U : User.t) (P : Post.t) :
  NoDup (map User.username (auth_user db)) -> In U (auth_user db) ->
  (ProfileView_lists fw now db viewer (User.username U) P
   <-> exists posts, ProfileView_posts fw now db viewer U = Some posts
                     /\ appears P posts).
Proof.
  intros Hnd HU. unfold ProfileView_lists, ProfileView. split.
  - intros [request [profile [pg [Ev [Ek [E H]]]]]].
    rewrite Ek, (get_User_or_404_unique db U Hnd HU), Ev in E.
    destruct (ProfileView_posts fw now db viewer U) as [posts | ];
      [ | discriminate ].
    exists posts. split; [ reflexivity | ].
    unfold render_page in E.
    destruct (get_page _ (GET_page request)) as [e | pg'] eqn:Eg;
      [ discriminate | ].
    injection E as _ <-.
    apply get_page_page in Eg. destruct Eg as [n Eg].
    unfold appears in *. apply in_map_iff in H. destruct H as [r [<- Hr]].
    apply in_map. eapply page_incl; eassumption.
  - intros [posts [E H]].
    unfold appears in H. apply in_map_iff in H. destruct H as [r [<- Hr]].
    apply on_a_page_iff in Hr. destruct Hr as [n [pg [Ep Hr]]].
    exists {| method := GET; user := viewer;
              kwargs := {| post_id := None; comment_id := None;
                           category_slug := None;
                           username := Some (User.username U) |};
              GET_page := Some (page_int n); POST_data := [] |}, U, pg.
    cbn [kwargs username user].
    rewrite (get_User_or_404_unique db U Hnd HU), E.
    unfold render_page. cbn [GET_page]. rewrite (page_get_page _ _ _ Ep).
    repeat split. now apply in_map.
Qed.

(** C2, as stated, fails: logged in as bob, who is not the owner, alice's
    profile lists her draft and her post dated ahead. *)
Lemma C2_other_user_sees_drafts :
  author_ne (User.id Sample.alice) (LoggedIn Sample.bob) = true
  /\ Post.is_published Sample.draft = false
  /\ Sample.now < Post.pub_date Sample.ahead
  /\ forall fw,
       ProfileView_lists fw Sample.now Sample.db (LoggedIn Sample.bob)
                         "alice" Sample.draft
       /\ ProfileView_lists fw Sample.now Sample.db (LoggedIn Sample.bob)
                            "alice" Sample.ahead.
Proof.
  split; [ reflexivity | ]. split; [ reflexivity | ].
  split; [ reflexivity | ].
  assert (Hnd : NoDup (map User.username (auth_user Sample.db))).
  { simpl. repeat constructor; simpl; intuition discriminate. }
  assert (HU : In Sample.alice (auth_user Sample.db)) by (simpl; tauto).
  intro fw.
  split; apply (ProfileView_lists_iff fw _ _ _ Sample.alice _ Hnd HU);
    eexists; (split; [ reflexivity | ]);
    apply appears_Meta_ordering; apply appears_filter_annotate;
    (split; [ simpl; tauto | reflexivity ]).
Qed.

(** C2, amended: the profile page of a user [U] lists to every viewer who is
    logged in, as [U] or as anyone else, exactly the posts [U] authored,
    whatever their published flag and publication date; a viewer who is not
    logged in is listed exactly the posts of [U] that are published and not
    dated after now. *)
Theorem C2_profile_lists_all_posts_to_logged_in_viewers
    (fw : Framework) (now : Z) (db : Database) (U : User.t)
    (viewer : RequestUser) (P : Post.t) :
  NoDup (map User.username (auth_user db)) -> In U (auth_user db) ->
  (is_authenticated viewer = true ->
   (ProfileView_lists fw now db viewer (User.username U) P
    <-> In P (blog_post db) /\ Post.author P = User.id U))
  /\ (is_authenticated viewer = false ->
      (ProfileView_lists fw now db viewer (User.username U) P
       <-> In P (blog_post db) /\ Post.author P = User.id U
           /\ Post.is_published P = true /\ Post.pub_date P <= now)).
Proof.
  intros Hnd HU.
  split; intros Ha; rewrite (ProfileView_lists_iff fw now db viewer U P Hnd HU);
    unfold ProfileView_posts; rewrite Ha,
      (get_User_or_404_unique db U Hnd HU); unfold select_related.
  - split.
    + intros [posts [E H]]. injection E as <-.
      apply appears_Meta_ordering, appears_filter_annotate in H. simpl in H.
      now rewrite Z.eqb_eq in H.
    + intros [Hin Hau]. eexists. split; [ reflexivity | ].
      apply appears_Meta_ordering, appears_filter_annotate. simpl.
      now rewrite Z.eqb_eq.
  - split.
    + intros [posts [E H]]. injection E as <-.
      apply appears_Meta_ordering, appears_filter_annotate in H. simpl in H.
      rewrite !andb_true_iff, Z.eqb_eq, Z.leb_le in H. tauto.
    + intros [Hin [Hau [Hp Hd]]]. eexists. split; [ reflexivity | ].
      apply appears_Meta_ordering, appears_filter_annotate. simpl.
      rewrite !andb_true_iff, Z.eqb_eq, Z.leb_le. tauto.
Qed.

Lemma C2_profile_lists_all_posts_to_logged_in_viewers_witness :
  NoDup (map User.username (auth_user Sample.db))
  /\ In Sample.alice (auth_user Sample.db)
  /\ (ProfileView_lists no_meta_ordering_in_group_by Sample.now Sample.db
        (LoggedIn Sample.alice) "alice" Sample.draft
      <-> In Sample.draft (blog_post Sample.db)
          /\ Post.author Sample.draft = User.id Sample.alice).
Proof.
  assert (Hnd : NoDup (map User.username (auth_user Sample.db))).
  { simpl. repeat constructor; simpl; intuition discriminate. }
  assert (HU : In Sample.alice (auth_user Sample.db)) by (simpl; tauto).
  split; [ exact Hnd | ]. split; [ exact HU | ].
  apply (C2_profile_lists_all_posts_to_logged_in_viewers
           no_meta_ordering_in_group_by Sample.now Sample.db Sample.alice
           (LoggedIn Sample.alice) Sample.draft Hnd HU).
  reflexivity.
Defined.

(** ** Pagination *)

Lemma slice_length_le {A} (P : Paginator A) (b t : Z) :
  (List.length (slice P b t) <= Z.to_nat (t - b))%nat.
Proof. unfold slice. apply firstn_le_length. Qed.

(** No page is longer than the page size. *)
Lemma page_length_le {A} (l : list A) (arg : option PageText) (pg : Page A) :
  page (new_Paginator l OBJECTS_PER_PAGE) arg = inr pg ->
  (List.length (object_list pg) <= 10)%nat.
Proof.
  unfold page. destruct (validate_number _ arg) as [e | n]; [ discriminate | ].
  intros E. injection E as <-. cbn [object_list].
  etransitivity; [ apply slice_length_le | ].
  cbn [per_page orphans new_Paginator]. unfold OBJECTS_PER_PAGE.
  destruct (_ <=? _) eqn:Ec; [ apply Z.leb_le in Ec | ]; lia.
Qed.

Lemma render_page_out_of_range {A} (l : list A) (request : HttpRequest)
    (k : Page A -> HttpResponse) (n : Z) :
  GET_page request = Some (page_int n) ->
  n < 1 \/ num_pages (new_Paginator l OBJECTS_PER_PAGE) < n ->
  exists pg, render_page l request k = k pg
             /\ last_page l = inr pg
             /\ number pg = num_pages (new_Paginator l OBJECTS_PER_PAGE).
Proof.
  intros Eg Hn. unfold render_page, last_page. rewrite Eg.
  assert (Hp : 0 < OBJECTS_PER_PAGE) by reflexivity.
  destruct (get_page_out_of_range l OBJECTS_PER_PAGE Hp n Hn)
    as [E [pg [Epg Hnum]]].
  exists pg. rewrite E, Epg. auto.
Qed.

Lemma paginate_queryset_out_of_range {A} (l : list A)
    (request : HttpRequest) (n : Z) :
  GET_page request = Some (page_int n) ->
  n < 1 \/ num_pages (new_Paginator l OBJECTS_PER_PAGE) < n ->
  paginate_queryset l OBJECTS_PER_PAGE request = None.
Proof.
  intros Eg Hn. unfold paginate_queryset. rewrite Eg.
  assert (Hp : 0 < OBJECTS_PER_PAGE) by reflexivity.
  unfold page.
  now rewrite (validate_number_out_of_range l OBJECTS_PER_PAGE Hp n Hn).
Qed.

Lemma slice_length {A} (l : list A) (p b t : Z) :
  0 <= b <= t -> t <= Z.of_nat (List.length l) ->
  List.length (slice (new_Paginator l p) b t) = Z.to_nat (t - b).
Proof.
  intros Hb Ht. unfold slice. cbn [paginator_object_list new_Paginator].
  rewrite length_firstn, length_skipn. lia.
Qed.

(** Twenty-five rows make three pages, of ten, ten and five rows, which
    together are the listing. *)
Lemma pages_of_25 {A} (l : list A) :
  List.length l = 25%nat ->
  num_pages (new_Paginator l OBJECTS_PER_PAGE) = 3
  /\ exists p1 p2 p3,
       page (new_Paginator l OBJECTS_PER_PAGE) (Some (page_int 1)) = inr p1
       /\ page (new_Paginator l OBJECTS_PER_PAGE) (Some (page_int 2)) = inr p2
       /\ page (new_Paginator l OBJECTS_PER_PAGE) (Some (page_int 3)) = inr p3
       /\ List.length (object_list p1) = 10%nat
       /\ List.length (object_list p2) = 10%nat
       /\ List.length (object_list p3) = 5%nat
       /\ (object_list p1 ++ object_list p2 ++ object_list p3)%list = l.
Proof.
  intros Hl.
  assert (Hn : num_pages (new_Paginator l OBJECTS_PER_PAGE) = 3).
  { unfold num_pages, count. cbn [paginator_object_list new_Paginator
      allow_empty_first_page orphans per_page]. rewrite Hl. reflexivity. }
  split; [ exact Hn | ].
  do 3 eexists.
  rewrite !(page_in_range l OBJECTS_PER_PAGE) by (rewrite Hn; lia).
  repeat (split; [ reflexivity | ]).
  cbn [object_list]. unfold count.
  cbn [paginator_object_list new_Paginator]. rewrite Hl.
  rewrite !slice_length by (rewrite ?Hl; unfold OBJECTS_PER_PAGE; lia).
  repeat (split; [ reflexivity | ]).
  unfold slice, OBJECTS_PER_PAGE. cbn [paginator_object_list new_Paginator].
  change (Z.to_nat ((1 - 1) * 10)) with 0%nat.
  change (Z.to_nat ((2 - 1) * 10)) with 10%nat.
  change (Z.to_nat ((3 - 1) * 10)) with 20%nat.
  change (Z.to_nat (Z.min (Z.of_nat 25) ((1 - 1) * 10 + 10) - (1 - 1) * 10))
    with 10%nat.
  change (Z.to_nat (Z.min (Z.of_nat 25) ((2 - 1) * 10 + 10) - (2 - 1) * 10))
    with 10%nat.
  change (Z.to_nat (Z.min (Z.of_nat 25) ((3 - 1) * 10 + 10) - (3 - 1) * 10))
    with 5%nat.
  do 25 (destruct l as [ | ? l ]; [ discriminate Hl | ]).
  destruct l; [ reflexivity | discriminate Hl ].
Qed.

(** A profile or category page is always rendered, with some page of the
    listing. *)
Lemma render_page_total {A} (l : list A) (request : HttpRequest)
    (k : Page A -> HttpResponse) :
  exists n pg, page (new_Paginator l OBJECTS_PER_PAGE) (Some (page_int n))
               = inr pg /\ render_page l request k = k pg.
Proof.
  unfold render_page.
  assert (Hp : 0 < OBJECTS_PER_PAGE) by reflexivity.
  destruct (get_page_total l OBJECTS_PER_PAGE Hp (GET_page request))
    as [pg E].
  rewrite E. apply get_page_page in E. destruct E as [n E]. eauto.
Qed.

Ltac render_page_in H :=
  match type of H with
  | context [render_page ?l ?r ?k] =>
      let n := fresh "n" in
      let pg := fresh "pg" in
      let E := fresh "E" in
      let Er := fresh "Er" in
      destruct (render_page_total l r k) as [n [pg [E Er]]];
      rewrite Er in H; injection H as <-;
      eapply page_length_le; exact E
  end.

(** C3, as stated, fails: with twenty-five live posts, which make three
    pages, the homepage answers page 99 with not-found. *)
Lemma C3_homepage_page_99_is_not_found :
  List.length (HomePage_get_queryset 100 Sample.db25) = 25%nat
  /\ HomePage 100 Sample.db25
       (Sample.get AnonymousUser Sample.no_kwargs (Some (page_int 99)))
     = Http404.
Proof. split; vm_compute; reflexivity. Qed.

(** C3, amended: every listing (homepage, profile, category) is cut into
    pages of at most 10 rows; for a requested page number outside the pages
    of the listing, the profile and the category page answer with the last
    page, and the homepage answers with not-found; a listing of 25 rows has
    exactly 3 pages, of 10, 10 and 5 rows. *)
Theorem C3_pages_of_ten_last_page_or_not_found
    (fw : Framework) (now import_time : Z) (db : Database)
    (request : HttpRequest) :
  (forall pg,
      page_obj_of (HomePage import_time db request) = Some pg
      \/ page_obj_of (ProfileView fw now db request) = Some pg
      \/ page_obj_of (CategoryListView fw now db request) = Some pg ->
      (List.length (object_list pg) <= 10)%nat)
  /\ (forall n, GET_page request = Some (page_int n) ->
        (forall object posts,
            get_User_or_404 db (username (kwargs request)) = Some object ->
            ProfileView_posts fw now db (user request) object = Some posts ->
            out_of_range posts n ->
            exists pg,
              ProfileView fw now db request
              = TemplateResponse PROFILE_HTML (profile_context object pg)
              /\ last_page posts = inr pg
              /\ number pg = num_pages (new_Paginator posts OBJECTS_PER_PAGE))
        /\ (forall object,
               CategoryListView_get_object db (category_slug (kwargs request))
               = Some object ->
               let posts :=
                 CategoryListView_posts fw now db
                   (category_slug (kwargs request)) in
               out_of_range posts n ->
               exists pg,
                 CategoryListView fw now db request
                 = TemplateResponse "blog/category.html"
                     (category_context object pg)
                 /\ last_page posts = inr pg
                 /\ number pg
                    = num_pages (new_Paginator posts OBJECTS_PER_PAGE))
        /\ (out_of_range (HomePage_get_queryset import_time db) n ->
            HomePage import_time db request = Http404))
  /\ (forall (l : list AnnotatedPost),
        List.length l = 25%nat ->
        num_pages (new_Paginator l OBJECTS_PER_PAGE) = 3
        /\ exists p1 p2 p3,
             page (new_Paginator l OBJECTS_PER_PAGE) (Some (page_int 1))
             = inr p1
             /\ page (new_Paginator l OBJECTS_PER_PAGE) (Some (page_int 2))
                = inr p2
             /\ page (new_Paginator l OBJECTS_PER_PAGE) (Some (page_int 3))
                = inr p3
             /\ List.length (object_list p1) = 10%nat
             /\ List.length (object_list p2) = 10%nat
             /\ List.length (object_list p3) = 5%nat
             /\ (object_list p1 ++ object_list p2 ++ object_list p3)%list = l).
Proof.
  split; [ | split ].
  - intros pg [H | [H | H]].
    + unfold HomePage in H.
      destruct (paginate_queryset _ _ request) as [pg' | ] eqn:E;
        [ | discriminate ].
      injection H as <-. apply paginate_queryset_page in E.
      destruct E as [n E]. eapply page_length_le; exact E.
    + unfold ProfileView in H.
      destruct (get_User_or_404 _ _) as [object | ]; [ | discriminate ].
      destruct (ProfileView_posts _ _ _ _ _) as [posts | ]; [ | discriminate ].
      render_page_in H.
    + unfold CategoryListView in H.
      destruct (CategoryListView_get_object _ _) as [object | ];
        [ | discriminate ].
      render_page_in H.
  - intros n Eg. split; [ | split ].
    + intros object posts Eo Ep Hn. unfold ProfileView. rewrite Eo, Ep.
      apply (render_page_out_of_range posts request _ n Eg Hn).
    + intros object Eo posts Hn. unfold CategoryListView. rewrite Eo.
      apply (render_page_out_of_range posts request _ n Eg Hn).
    + intros Hn. unfold HomePage.
      now rewrite (paginate_queryset_out_of_range _ request n Eg Hn).
  - intros l Hl. apply pages_of_25. exact Hl.
Qed.

Lemma C3_pages_of_ten_last_page_or_not_found_witness :
  get_User_or_404 Sample.db25 (Some "alice") = Some Sample.alice
  /\ out_of_range
       (map (annotate Sample.db25) (blog_post Sample.db25)) 99
  /\ exists pg,
       ProfileView no_meta_ordering_in_group_by 100 Sample.db25
         (Sample.get AnonymousUser (Sample.kw_username "alice")
                     (Some (page_int 99)))
       = TemplateResponse PROFILE_HTML (profile_context Sample.alice pg)
       /\ last_page (map (annotate Sample.db25) (blog_post Sample.db25))
          = inr pg
       /\ number pg = 3.
Proof.
  split; [ reflexivity | ]. split; [ right; reflexivity | ].
  destruct (C3_pages_of_ten_last_page_or_not_found
              no_meta_ordering_in_group_by 100 100 Sample.db25
              (Sample.get AnonymousUser (Sample.kw_username "alice")
                          (Some (page_int 99))))
    as [_ [H _]].
  destruct (H 99 eq_refl) as [Hprofile _].
  apply (Hprofile Sample.alice
           (map (annotate Sample.db25) (blog_post Sample.db25))).
  - reflexivity.
  - reflexivity.
  - right. reflexivity.
Defined.

(** C4, evaluated where the code departs from it: a published post of alice,
    dated in the past, sits in a category that is not published; the rule of
    the specification hides it and the homepage does not list it, yet the
    profile page lists it to a viewer who is not logged in. *)
Theorem C4_anonymous_profile_lists_post_of_unpublished_category :
  Post_category Sample.db Sample.in_hidden = Some Sample.hidden
  /\ Category.is_published Sample.hidden = false
  /\ spec_live Sample.db Sample.now Sample.in_hidden = false
  /\ ~ HomePage_lists Sample.now Sample.db Sample.in_hidden
  /\ forall fw,
       ProfileView_lists fw Sample.now Sample.db AnonymousUser
                         "alice" Sample.in_hidden.
Proof.
  repeat (split; [ reflexivity | ]). split.
  - rewrite HomePage_lists_iff, HomePage_get_queryset_rows.
    intros [_ [_ [_ H]]]. discriminate H.
  - intro fw.
    assert (Hnd : NoDup (map User.username (auth_user Sample.db))).
    { simpl. repeat constructor; simpl; intuition discriminate. }
    assert (HU : In Sample.alice (auth_user Sample.db)) by (simpl; tauto).
    apply (ProfileView_lists_iff fw _ _ _ Sample.alice _ Hnd HU).
    eexists. split; [ reflexivity | ].
    apply appears_Meta_ordering, appears_filter_annotate.
    split; [ simpl; tauto | reflexivity ].
Qed.

(** ** Detail pages *)

Lemma NoDup_map_eq {A K} (key : A -> K) (l : list A) (x y : A) :
  NoDup (map key l) -> In x l -> In y l -> key x = key y -> x = y.
Proof.
  induction l as [ | z l IH ]; simpl; [ tauto | ].
  intros Hnd Hx Hy E. inversion Hnd as [ | ? ? Hz Hl ]; subst.
  destruct Hx as [-> | Hx], Hy as [-> | Hy].
  - reflexivity.
  - exfalso. apply Hz. rewrite E. now apply in_map.
  - exfalso. apply Hz. rewrite <- E. now apply in_map.
  - now apply IH.
Qed.

(** C7: the detail page of a category that is not published answers
    not-found, whoever asks: the request, and with it the viewer, is
    arbitrary; the category is looked up among the published ones only. *)
Theorem C7_unpublished_category_is_not_found
    (fw : Framework) (now : Z) (db : Database) (request : HttpRequest)
    (C : Category.t) :
  NoDup (map Category.slug (blog_category db)) ->
  In C (blog_category db) ->
  Category.is_published C = false ->
  category_slug (kwargs request) = Some (Category.slug C) ->
  CategoryListView fw now db request = Http404.
Proof.
  intros Hnd HC Hp Ek. unfold CategoryListView. rewrite Ek.
  unfold CategoryListView_get_object.
  destruct (find _ _) as [c | ] eqn:E; [ exfalso | reflexivity ].
  apply find_some in E. destruct E as [Hin Es].
  apply filter_In in Hin. destruct Hin as [Hin Hc].
  apply String.eqb_eq in Es.
  assert (c = C) by (eapply NoDup_map_eq; eassumption).
  subst c. congruence.
Qed.

Lemma C7_unpublished_category_is_not_found_witness :
  NoDup (map Category.slug (blog_category Sample.db))
  /\ In Sample.hidden (blog_category Sample.db)
  /\ Category.is_published Sample.hidden = false
  /\ CategoryListView no_meta_ordering_in_group_by Sample.now Sample.db
       (Sample.get (LoggedIn Sample.alice) (Sample.kw_category_slug "hidden")
                   None)
     = Http404.
Proof.
  assert (Hnd : NoDup (map Category.slug (blog_category Sample.db))).
  { simpl. repeat constructor; simpl; intuition discriminate. }
  split; [ exact Hnd | ]. split; [ simpl; tauto | ].
  split; [ reflexivity | ].
  apply (C7_unpublished_category_is_not_found
           no_meta_ordering_in_group_by Sample.now Sample.db _ Sample.hidden
           Hnd).
  - simpl; tauto.
  - reflexivity.
  - reflexivity.
Defined.

(** A lookup that finds no row under a key the store can hold ends in
    not-found, in every series. *)
Lemma no_row_fits (sr : Series) (k : option Z) :
  (forall i, k = Some i -> key_fits i = true) -> no_row sr k = Http404.
Proof.
  intros H. unfold no_row. destruct k as [i | ]; [ | reflexivity ].
  rewrite (H i eq_refl). now rewrite andb_false_r.
Qed.

(** And in not-found or in a server error, whatever the key. *)
Lemma no_row_cases (sr : Series) (k : option Z) :
  no_row sr k = Http404 \/ no_row sr k = ServerError.
Proof.
  unfold no_row. destruct k as [i | ]; [ | now left ].
  destruct (_ && _); [ now right | now left ].
Qed.

(** C9: the detail page of a post of the store, asked for by its id, shows
    that post to every viewer, whatever its published flag, its publication
    date and its category; the one check is not-found, for an id within the
    store's keys that no post has. *)
Theorem C9_post_detail_has_no_visibility_filter
    (sr : Series) (db : Database) (request : HttpRequest) :
  NoDup (map Post.id (blog_post db)) ->
  (forall P, In P (blog_post db) ->
             post_id (kwargs request) = Some (Post.id P) ->
             PostDetailView sr db request
             = TemplateResponse "blog/detail.html"
                 (detail_context P (Post_comments db P)))
  /\ ((forall P, In P (blog_post db) ->
                 post_id (kwargs request) <> Some (Post.id P)) ->
      (forall k, post_id (kwargs request) = Some k -> key_fits k = true) ->
      PostDetailView sr db request = Http404).
Proof.
  intros Hnd. unfold PostDetailView. split.
  - intros P Hin Ek. rewrite Ek.
    now rewrite (get_Post_or_404_unique db P Hnd Hin).
  - intros Hno Hfit.
    destruct (get_Post_or_404 db (post_id (kwargs request))) as [P | ] eqn:E;
      [ exfalso | now apply no_row_fits ].
    apply get_Post_or_404_id in E. destruct E as [Hin Ek].
    exact (Hno P Hin Ek).
Qed.

Lemma C9_post_detail_has_no_visibility_filter_witness :
  NoDup (map Post.id (blog_post Sample.db))
  /\ In Sample.draft (blog_post Sample.db)
  /\ Post.is_published Sample.draft = false
  /\ PostDetailView Sample.series_3 Sample.db
       (Sample.get AnonymousUser (Sample.kw_post_id 3) None)
     = TemplateResponse "blog/detail.html"
         (detail_context Sample.draft (Post_comments Sample.db Sample.draft))
  /\ (forall P, In P (blog_post Sample.db) -> Some 77 <> Some (Post.id P))
  /\ key_fits 77 = true
  /\ PostDetailView Sample.series_3 Sample.db
       (Sample.get AnonymousUser (Sample.kw_post_id 77) None)
     = Http404.
Proof.
  assert (Hnd : NoDup (map Post.id (blog_post Sample.db))).
  { simpl. repeat constructor; simpl; intuition discriminate. }
  assert (Hno : forall P, In P (blog_post Sample.db) ->
                          Some 77 <> Some (Post.id P)).
  { intros P HP. simpl in HP.
    repeat (destruct HP as [<- | HP]; [ discriminate | ]). destruct HP. }
  split; [ exact Hnd | ]. split; [ simpl; tauto | ].
  split; [ reflexivity | ]. split; [ | split; [ exact Hno | split ] ].
  - apply (C9_post_detail_has_no_visibility_filter Sample.series_3 Sample.db
             _ Hnd).
    + simpl; tauto.
    + reflexivity.
  - reflexivity.
  - apply (C9_post_detail_has_no_visibility_filter Sample.series_3 Sample.db
             _ Hnd).
    + exact Hno.
    + intros k Ek. injection Ek as <-. reflexivity.
Defined.

(** ** The ownership guard *)

(** What holds of the guard on posts: for a post that exists, the request
    goes on to [super().dispatch] when the author is the requesting user,
    and is otherwise answered, with the store untouched and whatever the
    rest of the view would do, by a redirect to that post's own page. *)
Lemma PostEditMixin_dispatch_guard (sr : Series) (super_dispatch : View)
    (db : Database) (request : HttpRequest) (P : Post.t) :
  get_Post_or_404 db (post_id (kwargs request)) = Some P ->
  PostEditMixin_dispatch sr super_dispatch db request
  = if author_ne (Post.author P) (user request)
    then (db, HttpResponseRedirect (url_post_detail (Post.id P)))
    else super_dispatch db request.
Proof.
  intros E. unfold PostEditMixin_dispatch. rewrite E.
  apply get_Post_or_404_id in E. destruct E as [_ ->]. reflexivity.
Qed.

(** What holds of the guard on comments: the same decision, on the
    comment's author; the redirect goes to the page of the post the URL
    names. *)
Lemma CommentEditMixin_dispatch_guard (sr : Series) (super_dispatch : View)
    (db : Database) (request : HttpRequest) (C : Comment.t) :
  get_Comment_or_404 db (comment_id (kwargs request)) = Some C ->
  CommentEditMixin_dispatch sr super_dispatch db request
  = if author_ne (Comment.author C) (user request)
    then (db, redirect_DETAIL_URL (post_id (kwargs request)))
    else super_dispatch db request.
Proof.
  intros E. unfold CommentEditMixin_dispatch. now rewrite E.
Qed.

(** A request that is not let through leaves every comment as it was,
    whichever post the URL names. *)
Lemma comment_guard_leaves_store (sr : Series)
    (CommentForm : QueryDict -> option Comment.t -> option Comment.t)
    (db : Database) (request : HttpRequest) (C : Comment.t) :
  get_Comment_or_404 db (comment_id (kwargs request)) = Some C ->
  author_ne (Comment.author C) (user request) = true ->
  fst (EditComment sr CommentForm db request) = db
  /\ fst (CommentDeleteView sr CommentForm db request) = db.
Proof.
  intros E Hne. unfold EditComment, CommentDeleteView.
  rewrite !(CommentEditMixin_dispatch_guard sr _ db request C E), Hne.
  split; reflexivity.
Qed.

(** When the URL names the comment's own post, the redirect goes there. *)
Lemma comment_guard_redirects_to_parent_on_matching_url
    (sr : Series) (super_dispatch : View) (db : Database)
    (request : HttpRequest) (C : Comment.t) :
  get_Comment_or_404 db (comment_id (kwargs request)) = Some C ->
  author_ne (Comment.author C) (user request) = true ->
  post_id (kwargs request) = Some (Comment.posts C) ->
  CommentEditMixin_dispatch sr super_dispatch db request
  = (db, HttpResponseRedirect (url_post_detail (Comment.posts C))).
Proof.
  intros E Hne Ek.
  now rewrite (CommentEditMixin_dispatch_guard sr _ db request C E), Hne, Ek.
Qed.

(** C5, evaluated where the code departs from it: bob asks to edit alice's
    comment, which hangs on post 1, through a URL that names post 2; the
    guard, before anything else of the view runs, redirects him to the page
    of post 2, not to the page of the comment's post. *)
Theorem C5_comment_guard_redirects_to_post_named_in_url :
  let request :=
    Sample.get (LoggedIn Sample.bob) (Sample.kw_comment_id 2 1) None in
  get_Comment_or_404 Sample.db (comment_id (kwargs request))
  = Some Sample.remark
  /\ author_ne (Comment.author Sample.remark) (user request) = true
  /\ Comment.posts Sample.remark = 1
  /\ forall sr super_dispatch,
       CommentEditMixin_dispatch sr super_dispatch Sample.db request
       = (Sample.db, HttpResponseRedirect (url_post_detail 2)).
Proof.
  repeat (split; [ reflexivity | ]). intros sr super_dispatch. reflexivity.
Qed.

(** C6, evaluated where the code departs from it: bob submits an edit and a
    deletion of alice's comment, which hangs on post 1, through a URL that
    names post 2; the comment stays as it was, and the redirect goes to the
    page of post 2, not to the page of post 1. *)
Theorem C6_foreign_comment_kept_but_redirect_follows_url
    (sr : Series)
    (CommentForm : QueryDict -> option Comment.t -> option Comment.t)
    (data : QueryDict) :
  let request :=
    Sample.post_ (LoggedIn Sample.bob) (Sample.kw_comment_id 2 1) data in
  In Sample.remark (blog_comment Sample.db)
  /\ Comment.posts Sample.remark = 1
  /\ EditComment sr CommentForm Sample.db request
     = (Sample.db, HttpResponseRedirect (url_post_detail 2))
  /\ CommentDeleteView sr CommentForm Sample.db request
     = (Sample.db, HttpResponseRedirect (url_post_detail 2)).
Proof.
  simpl. split; [ tauto | ]. repeat split.
Qed.

(** ** Creation *)

Lemma fst_LoginRequiredMixin_dispatch (v : View) (db : Database)
    (request : HttpRequest) :
  fst (LoginRequiredMixin_dispatch v db request)
  = if is_authenticated (user request) then fst (v db request) else db.
Proof.
  unfold LoginRequiredMixin_dispatch.
  now destruct (is_authenticated (user request)).
Qed.

(** C10: whatever the two model forms make of the submitted data, a request
    to the post creation view either leaves the store as it was or adds one
    post whose author is the logged-in requesting user, and a request to the
    comment creation view either leaves the store as it was or adds one
    comment whose author is the logged-in requesting user and whose post is
    the one the URL names; and a valid submission by a logged-in user does
    add that row. *)
Theorem C10_created_rows_belong_to_the_requesting_user
    (sr : Series)
    (PostForms : QueryDict -> option Post.t -> option Post.t)
    (CommentForm : QueryDict -> option Comment.t -> option Comment.t)
    (now : Z) (db : Database) (request : HttpRequest) :
  (let db' := fst (PostCreatView PostForms db request) in
   db' = db
   \/ exists u saved,
        user request = LoggedIn u
        /\ db' = set_blog_post db (blog_post db ++ [saved])
        /\ Post.author saved = User.id u)
  /\ (let db' := fst (CommentCreateView sr CommentForm now db request) in
      db' = db
      \/ exists u p saved,
           user request = LoggedIn u
           /\ In p (blog_post db)
           /\ post_id (kwargs request) = Some (Post.id p)
           /\ db' = set_blog_comment db (blog_comment db ++ [saved])
           /\ Comment.author saved = User.id u
           /\ Comment.posts saved = Post.id p)
  /\ (forall u instance,
         user request = LoggedIn u -> method request = POST ->
         PostForms (POST_data request) None = Some instance ->
         exists saved,
           fst (PostCreatView PostForms db request)
           = set_blog_post db (blog_post db ++ [saved])
           /\ Post.author saved = User.id u)
  /\ (forall u p instance,
         user request = LoggedIn u -> method request = POST ->
         get_Post_or_404 db (post_id (kwargs request)) = Some p ->
         CommentForm (POST_data request) None = Some instance ->
         exists saved,
           fst (CommentCreateView sr CommentForm now db request)
           = set_blog_comment db (blog_comment db ++ [saved])
           /\ Comment.author saved = User.id u
           /\ Comment.posts saved = Post.id p).
Proof.
  split; [ | split; [ | split ] ].
  - cbv zeta. unfold PostCreatView. rewrite fst_LoginRequiredMixin_dispatch.
    destruct (user request) as [ | u ] eqn:Eu; simpl; [ now left | ].
    destruct (method request); simpl; [ now left | ].
    destruct (PostForms _ None) as [instance | ]; simpl; [ | now left ].
    right. exists u. eexists. repeat split.
  - cbv zeta. unfold CommentCreateView.
    destruct (get_Post_or_404 db (post_id (kwargs request))) as [p | ] eqn:Ep;
      simpl; [ | now left ].
    apply get_Post_or_404_id in Ep. destruct Ep as [Hin Ek].
    rewrite fst_LoginRequiredMixin_dispatch.
    destruct (user request) as [ | u ] eqn:Eu; simpl; [ now left | ].
    destruct (method request); simpl; [ now left | ].
    destruct (CommentForm _ None) as [instance | ]; simpl; [ | now left ].
    right. exists u, p. eexists. repeat split; assumption.
  - intros u instance Eu Em Ef. unfold PostCreatView.
    rewrite fst_LoginRequiredMixin_dispatch, Eu, Em, Ef. simpl.
    eexists. split; reflexivity.
  - intros u p instance Eu Em Ep Ef. unfold CommentCreateView.
    rewrite Ep, fst_LoginRequiredMixin_dispatch, Eu, Em, Ef. simpl.
    eexists. repeat split.
Qed.

Lemma C10_created_rows_belong_to_the_requesting_user_witness :
  Sample.form_naming_bob [] None
  = Some (Sample.mk_post 0 "Mine" 10 (User.id Sample.bob) (Some 1) true)
  /\ exists saved,
       fst (PostCreatView Sample.form_naming_bob Sample.db
              (Sample.post_ (LoggedIn Sample.alice) Sample.no_kwargs []))
       = set_blog_post Sample.db (blog_post Sample.db ++ [saved])
       /\ Post.author saved = User.id Sample.alice.
Proof.
  split; [ reflexivity | ].
  destruct (C10_created_rows_belong_to_the_requesting_user Sample.series_3
              Sample.form_naming_bob Sample.no_comment_form Sample.now Sample.db
              (Sample.post_ (LoggedIn Sample.alice) Sample.no_kwargs []))
    as [_ [_ [H _]]].
  apply (H Sample.alice
           (Sample.mk_post 0 "Mine" 10 (User.id Sample.bob) (Some 1) true));
    reflexivity.
Defined.

(** ** Ordering of the listings *)

(** The homepage sets [ordering] itself: its listing is ordered. *)
Lemma HomePage_listing_ordered (import_time : Z) (db : Database) :
  spec_ordered (HomePage_get_queryset import_time db).
Proof. apply order_by_spec_ordered. Qed.

(** Where the model's default ordering reaches aggregating queries, the
    profile and the category listing are ordered too. *)
Lemma listings_ordered_under_Meta_ordering (now : Z) (db : Database)
    (viewer : RequestUser) (U : User.t) (s : option string) :
  (forall posts,
      ProfileView_posts meta_ordering_in_group_by now db viewer U = Some posts ->
      spec_ordered posts)
  /\ spec_ordered (CategoryListView_posts meta_ordering_in_group_by now db s).
Proof.
  split.
  - intros posts. unfold ProfileView_posts.
    destruct (is_authenticated viewer);
      destruct (get_User_or_404 db _); try discriminate;
      intros E; injection E as <-; apply order_by_spec_ordered.
  - apply order_by_spec_ordered.
Qed.

Lemma Sorted_skipn {A} (R : A -> A -> Prop) (n : nat) (l : list A) :
  Sorted R l -> Sorted R (skipn n l).
Proof.
  revert l. induction n as [ | n IH ]; intros l H; [ exact H | ].
  destruct l as [ | a l ]; [ constructor | ].
  simpl. apply IH. now inversion H.
Qed.

Lemma Sorted_firstn {A} (R : A -> A -> Prop) (n : nat) (l : list A) :
  Sorted R l -> Sorted R (firstn n l).
Proof.
  revert l. induction n as [ | n IH ]; intros l H; [ constructor | ].
  destruct l as [ | a l ]; [ constructor | ].
  simpl. inversion H as [ | ? ? Hl Hd ]; subst.
  constructor; [ now apply IH | ].
  destruct Hd as [ | b l' Hab ]; [ destruct n; constructor | ].
  destruct n; constructor. exact Hab.
Qed.

(** A page of an ordered listing is ordered. *)
Lemma page_ordered (l : list AnnotatedPost) (arg : option PageText)
    (pg : Page AnnotatedPost) :
  spec_ordered l ->
  page (new_Paginator l OBJECTS_PER_PAGE) arg = inr pg ->
  spec_ordered (object_list pg).
Proof.
  intros Hl. unfold page.
  destruct (validate_number _ arg) as [e | n]; [ discriminate | ].
  intros E. injection E as <-. cbn [object_list]. unfold slice.
  now apply Sorted_firstn, Sorted_skipn.
Qed.

(** C8, evaluated where the code departs from it: with the model's default
    ordering not reaching aggregating queries, alice's profile and the
    page of the category "travel" list her older post before her newer one,
    as the store holds them, while the homepage lists the same store in
    order. *)
Theorem C8_profile_and_category_listings_in_storage_order :
  Post.pub_date Sample.older < Post.pub_date Sample.newer
  /\ spec_ordered (HomePage_get_queryset Sample.now Sample.db)
  /\ (exists posts,
         ProfileView_posts no_meta_ordering_in_group_by Sample.now Sample.db
           AnonymousUser Sample.alice = Some posts
         /\ map post (firstn 2 posts) = [Sample.older; Sample.newer]
         /\ ~ spec_ordered posts)
  /\ (let posts :=
        CategoryListView_posts no_meta_ordering_in_group_by Sample.now
          Sample.db (Some "travel") in
      map post posts = [Sample.older; Sample.newer]
      /\ ~ spec_ordered posts).
Proof.
  split; [ reflexivity | ]. split; [ apply HomePage_listing_ordered | ].
  split.
  - eexists. split; [ reflexivity | ]. split; [ reflexivity | ].
    intro H. inversion H as [ | ? ? _ Hd ]; subst.
    inversion Hd as [ | ? ? Hab ]; subst. discriminate Hab.
  - cbv zeta. split; [ reflexivity | ].
    intro H. vm_compute in H. inversion H as [ | ? ? _ Hd ]; subst.
    inversion Hd as [ | ? ? Hab ]; subst. discriminate Hab.
Qed.

(** * Further properties of the views *)

(** ** The guard on the post views *)

Lemma get_Post_or_404_None (db : Database) (k : option Z) :
  (forall P, In P (blog_post db) -> k <> Some (Post.id P)) ->
  get_Post_or_404 db k = None.
Proof.
  intros H. destruct (get_Post_or_404 db k) as [P | ] eqn:E; [ | reflexivity ].
  apply get_Post_or_404_id in E. destruct E as [Hin Ek].
  now elim (H P Hin).
Qed.

Lemma get_Comment_or_404_None (db : Database) (k : option Z) :
  (forall C, In C (blog_comment db) -> k <> Some (Comment.id C)) ->
  get_Comment_or_404 db k = None.
Proof.
  intros H.
  destruct (get_Comment_or_404 db k) as [C | ] eqn:E; [ | reflexivity ].
  apply get_Comment_or_404_id in E. destruct E as [Hin Ek].
  now elim (H C Hin).
Qed.

(** Whoever is not the author of a post, logged in or not, and asks to edit
    or to delete it is sent to that post's own page, and the store stays as
    it was. *)
Theorem post_views_turn_non_author_away
    (sr : Series)
    (PostForms : QueryDict -> option Post.t -> option Post.t)
    (db : Database) (request : HttpRequest) (P : Post.t) :
  get_Post_or_404 db (post_id (kwargs request)) = Some P ->
  author_ne (Post.author P) (user request) = true ->
  PostEditView sr PostForms db request
  = (db, HttpResponseRedirect (url_post_detail (Post.id P)))
  /\ PostDeleteView sr PostForms db request
     = (db, HttpResponseRedirect (url_post_detail (Post.id P))).
Proof.
  intros E Hne. unfold PostEditView, PostDeleteView.
  rewrite !(PostEditMixin_dispatch_guard sr _ db request P E), Hne.
  split; reflexivity.
Qed.

Lemma post_views_turn_non_author_away_witness :
  get_Post_or_404 Sample.db (Some 3) = Some Sample.draft
  /\ author_ne (Post.author Sample.draft) AnonymousUser = true
  /\ PostEditView Sample.series_3 Sample.form_naming_bob Sample.db
       (Sample.post_ AnonymousUser (Sample.kw_post_id 3) [])
     = (Sample.db, HttpResponseRedirect (url_post_detail 3))
  /\ PostDeleteView Sample.series_3 Sample.form_naming_bob Sample.db
       (Sample.post_ AnonymousUser (Sample.kw_post_id 3) [])
     = (Sample.db, HttpResponseRedirect (url_post_detail 3)).
Proof.
  split; [ reflexivity | ]. split; [ reflexivity | ].
  apply (post_views_turn_non_author_away Sample.series_3
           Sample.form_naming_bob Sample.db
           (Sample.post_ AnonymousUser (Sample.kw_post_id 3) [])
           Sample.draft); reflexivity.
Defined.

(** Only a logged-in user passes the comparison with an author. *)
Lemma author_ne_false_authenticated (a : Z) (u : RequestUser) :
  author_ne a u = false -> is_authenticated u = true.
Proof. destruct u; [ discriminate | reflexivity ]. Qed.

(** The login mixin of the four edit and delete views is never reached by a
    visitor who is not logged in: the guard in front of it answers first, so
    none of these views ever redirects to the login page. *)
Theorem edit_views_never_redirect_to_login
    (sr : Series)
    (PostForms : QueryDict -> option Post.t -> option Post.t)
    (CommentForm : QueryDict -> option Comment.t -> option Comment.t)
    (db : Database) (request : HttpRequest) :
  snd (PostEditView sr PostForms db request) <> HttpResponseRedirect url_login
  /\ snd (PostDeleteView sr PostForms db request)
     <> HttpResponseRedirect url_login
  /\ snd (EditComment sr CommentForm db request)
     <> HttpResponseRedirect url_login
  /\ snd (CommentDeleteView sr CommentForm db request)
     <> HttpResponseRedirect url_login.
Proof.
  unfold PostEditView, PostDeleteView, EditComment, CommentDeleteView,
    PostEditMixin_dispatch, CommentEditMixin_dispatch,
    LoginRequiredMixin_dispatch, Post_UpdateView, Post_DeleteView,
    PostDeleteView_render, Comment_UpdateView, Comment_DeleteView,
    redirect_DETAIL_URL.
  repeat split;
    repeat match goal with
           | |- context [no_row ?s ?k] =>
               destruct (no_row_cases s k) as [-> | ->]
           | |- context [match ?x with _ => _ end] => destruct x eqn:?
           end;
    simpl; try discriminate;
    match goal with
    | H : author_ne _ _ = false |- _ =>
        apply author_ne_false_authenticated in H; congruence
    end.
Qed.

(** An id within the store's keys that no row has is answered with
    not-found, by all four edit and delete views and by the comment creation
    view, before the login check and before the form is looked at; nothing
    is written.  For an id beyond the store's keys, the series in which the
    lookup raises end in a server error instead, again with nothing
    written. *)
Theorem unknown_id_is_not_found
    (sr : Series)
    (PostForms : QueryDict -> option Post.t -> option Post.t)
    (CommentForm : QueryDict -> option Comment.t -> option Comment.t)
    (now : Z) (db : Database) (request : HttpRequest) :
  ((forall P, In P (blog_post db) ->
              post_id (kwargs request) <> Some (Post.id P)) ->
   ((forall k, post_id (kwargs request) = Some k -> key_fits k = true) ->
    PostEditView sr PostForms db request = (db, Http404)
    /\ PostDeleteView sr PostForms db request = (db, Http404)
    /\ CommentCreateView sr CommentForm now db request = (db, Http404))
   /\ (forall k, post_id (kwargs request) = Some k -> key_fits k = false ->
                 overflow_raises sr = true ->
                 PostEditView sr PostForms db request = (db, ServerError)
                 /\ PostDeleteView sr PostForms db request = (db, ServerError)
                 /\ CommentCreateView sr CommentForm now db request
                    = (db, ServerError)))
  /\ ((forall C, In C (blog_comment db) ->
                 comment_id (kwargs request) <> Some (Comment.id C)) ->
      ((forall k, comment_id (kwargs request) = Some k -> key_fits k = true) ->
       EditComment sr CommentForm db request = (db, Http404)
       /\ CommentDeleteView sr CommentForm db request = (db, Http404))
      /\ (forall k, comment_id (kwargs request) = Some k ->
                    key_fits k = false -> overflow_raises sr = true ->
                    EditComment sr CommentForm db request = (db, ServerError)
                    /\ CommentDeleteView sr CommentForm db request
                       = (db, ServerError))).
Proof.
  split; intros H.
  - apply get_Post_or_404_None in H.
    unfold PostEditView, PostDeleteView, CommentCreateView,
      PostEditMixin_dispatch.
    rewrite H. split.
    + intros Hfit. rewrite (no_row_fits sr _ Hfit). repeat split.
    + intros k Ek Hk Ho. rewrite Ek. unfold no_row. rewrite Ho, Hk.
      repeat split.
  - apply get_Comment_or_404_None in H.
    unfold EditComment, CommentDeleteView, CommentEditMixin_dispatch.
    rewrite H. split.
    + intros Hfit. rewrite (no_row_fits sr _ Hfit). repeat split.
    + intros k Ek Hk Ho. rewrite Ek. unfold no_row. rewrite Ho, Hk.
      repeat split.
Qed.

Lemma unknown_id_is_not_found_witness :
  (forall P, In P (blog_post Sample.db) -> Some 77 <> Some (Post.id P))
  /\ key_fits 77 = true
  /\ CommentCreateView Sample.series_3 Sample.no_comment_form Sample.now
       Sample.db (Sample.post_ AnonymousUser (Sample.kw_post_id 77) [])
     = (Sample.db, Http404)
  /\ (forall P, In P (blog_post Sample.db) ->
                Some (2 ^ 63) <> Some (Post.id P))
  /\ key_fits (2 ^ 63) = false
  /\ PostEditView Sample.series_3 Sample.form_naming_bob Sample.db
       (Sample.get AnonymousUser (Sample.kw_post_id (2 ^ 63)) None)
     = (Sample.db, ServerError)
  /\ PostEditView Sample.series_5 Sample.form_naming_bob Sample.db
       (Sample.get AnonymousUser (Sample.kw_post_id (2 ^ 63)) None)
     = (Sample.db, Http404).
Proof.
  assert (H : forall k, forall P, In P (blog_post Sample.db) ->
                Post.id P <> k -> Some k <> Some (Post.id P))
    by (intros k P _ Hne E; injection E as E; now apply Hne).
  assert (H77 : forall P, In P (blog_post Sample.db) ->
                          Some 77 <> Some (Post.id P)).
  { intros P HP. apply H; [ exact HP | ]. simpl in HP.
    repeat (destruct HP as [<- | HP]; [ discriminate | ]). destruct HP. }
  assert (Hbig : forall P, In P (blog_post Sample.db) ->
                           Some (2 ^ 63) <> Some (Post.id P)).
  { intros P HP. apply H; [ exact HP | ]. simpl in HP.
    repeat (destruct HP as [<- | HP]; [ discriminate | ]). destruct HP. }
  split; [ exact H77 | ]. split; [ reflexivity | ]. split.
  - destruct (unknown_id_is_not_found Sample.series_3 Sample.form_naming_bob
                Sample.no_comment_form Sample.now Sample.db
                (Sample.post_ AnonymousUser (Sample.kw_post_id 77) []))
      as [Hpost _].
    destruct (Hpost H77) as [Hfit _]. apply Hfit.
    intros k Ek. injection Ek as <-. reflexivity.
  - split; [ exact Hbig | ]. split; [ reflexivity | ]. split.
    + destruct (unknown_id_is_not_found Sample.series_3
                  Sample.form_naming_bob Sample.no_comment_form Sample.now
                  Sample.db
                  (Sample.get AnonymousUser (Sample.kw_post_id (2 ^ 63)) None))
        as [Hpost _].
      destruct (Hpost Hbig) as [_ Hover].
      apply (Hover (2 ^ 63)); reflexivity.
    + reflexivity.
Defined.

(** A GET request changes nothing in the store, whichever of the views that
    write it goes to. *)
Theorem GET_leaves_the_store
    (sr : Series)
    (PostForms : QueryDict -> option Post.t -> option Post.t)
    (CommentForm : QueryDict -> option Comment.t -> option Comment.t)
    (now : Z) (db : Database) (request : HttpRequest) :
  method request = GET ->
  fst (PostCreatView PostForms db request) = db
  /\ fst (PostEditView sr PostForms db request) = db
  /\ fst (PostDeleteView sr PostForms db request) = db
  /\ fst (CommentCreateView sr CommentForm now db request) = db
  /\ fst (EditComment sr CommentForm db request) = db
  /\ fst (CommentDeleteView sr CommentForm db request) = db.
Proof.
  intros Em.
  unfold PostCreatView, PostEditView, PostDeleteView, CommentCreateView,
    EditComment, CommentDeleteView, PostEditMixin_dispatch,
    CommentEditMixin_dispatch.
  repeat split.
  - rewrite fst_LoginRequiredMixin_dispatch, Em.
    now destruct (is_authenticated _).
  - destruct (get_Post_or_404 _ _) as [P | ] eqn:E; [ | reflexivity ].
    destruct (author_ne _ _); [ reflexivity | ].
    rewrite fst_LoginRequiredMixin_dispatch. unfold Post_UpdateView.
    rewrite E, Em. now destruct (is_authenticated _).
  - destruct (get_Post_or_404 _ _) as [P | ] eqn:E; [ | reflexivity ].
    destruct (author_ne _ _); [ reflexivity | ].
    rewrite fst_LoginRequiredMixin_dispatch.
    unfold Post_DeleteView, PostDeleteView_render.
    rewrite E, Em.
    destruct (is_authenticated _); [ | reflexivity ].
    now destruct (get_Post_or_404 db (Some (Post.id P))).
  - destruct (get_Post_or_404 _ _) as [P | ]; [ | reflexivity ].
    rewrite fst_LoginRequiredMixin_dispatch, Em.
    now destruct (is_authenticated _).
  - destruct (get_Comment_or_404 _ _) as [C | ] eqn:E; [ | reflexivity ].
    destruct (author_ne _ _); [ reflexivity | ].
    rewrite fst_LoginRequiredMixin_dispatch. unfold Comment_UpdateView.
    rewrite E, Em. now destruct (is_authenticated _).
  - destruct (get_Comment_or_404 _ _) as [C | ] eqn:E; [ | reflexivity ].
    destruct (author_ne _ _); [ reflexivity | ].
    rewrite fst_LoginRequiredMixin_dispatch. unfold Comment_DeleteView.
    rewrite E, Em. now destruct (is_authenticated _).
Qed.

Lemma GET_leaves_the_store_witness :
  method (Sample.get (LoggedIn Sample.alice) (Sample.kw_post_id 1) None) = GET
  /\ fst (PostDeleteView Sample.series_3 Sample.form_naming_bob Sample.db
            (Sample.get (LoggedIn Sample.alice) (Sample.kw_post_id 1) None))
     = Sample.db.
Proof.
  split; [ reflexivity | ].
  destruct (GET_leaves_the_store Sample.series_3 Sample.form_naming_bob
              Sample.no_comment_form Sample.now Sample.db
              (Sample.get (LoggedIn Sample.alice) (Sample.kw_post_id 1) None)
              eq_refl)
    as [_ [_ [H _]]].
  exact H.
Defined.

(** ** Deleting, editing and creating posts *)

Lemma author_ne_false (a : Z) (u : User.t) :
  a = User.id u -> author_ne a (LoggedIn u) = false.
Proof. intros ->. simpl. now rewrite Z.eqb_refl. Qed.

Lemma get_Post_or_404_again (db : Database) (k : option Z) (P : Post.t) :
  get_Post_or_404 db k = Some P ->
  get_Post_or_404 db (Some (Post.id P)) = Some P.
Proof.
  intros E. pose proof (get_Post_or_404_id db k P E) as [_ Ek].
  now rewrite <- Ek.
Qed.

(** When its author POSTs to the delete view of a post, in a series before
    4.0, or in a later one with data the view's form accepts, the post is
    gone and so is every comment on it; every other post and every comment
    on another post stay; the author lands on the index page, and the
    post's detail page answers not-found from then on.  From 4.0 on, with
    data the form rejects, nothing is deleted and the page is rendered
    again with the post. *)
Theorem author_deletes_post_and_its_comments
    (sr : Series)
    (PostForms : QueryDict -> option Post.t -> option Post.t)
    (db : Database) (request : HttpRequest) (P : Post.t) (u : User.t) :
  get_Post_or_404 db (post_id (kwargs request)) = Some P ->
  user request = LoggedIn u ->
  Post.author P = User.id u ->
  method request = POST ->
  (delete_validates_form sr = false
   \/ PostForms (POST_data request) None <> None ->
   let db' := fst (PostDeleteView sr PostForms db request) in
   snd (PostDeleteView sr PostForms db request)
   = HttpResponseRedirect url_index
   /\ (forall Q, In Q (blog_post db')
                 <-> In Q (blog_post db) /\ Post.id Q <> Post.id P)
   /\ (forall c, In c (blog_comment db')
                 <-> In c (blog_comment db) /\ Comment.posts c <> Post.id P)
   /\ (key_fits (Post.id P) = true ->
       PostDetailView sr db' request = Http404))
  /\ (delete_validates_form sr = true ->
      PostForms (POST_data request) None = None ->
      PostDeleteView sr PostForms db request
      = (db, TemplateResponse "blog/create.html"
               (post_form_context (Some P)))).
Proof.
  intros E Eu Ea Em.
  assert (Eg : PostDeleteView sr PostForms db request
               = Post_DeleteView sr PostForms db request).
  { unfold PostDeleteView.
    rewrite (PostEditMixin_dispatch_guard sr _ db request P E), Eu.
    rewrite (author_ne_false _ u Ea).
    unfold LoginRequiredMixin_dispatch. now rewrite Eu. }
  rewrite Eg. unfold Post_DeleteView. rewrite E, Em. split.
  - intros Hdel.
    assert (Ed : (if delete_validates_form sr
                  then match PostForms (POST_data request) None with
                       | Some _ =>
                           (Post_delete db P, HttpResponseRedirect url_index)
                       | None => PostDeleteView_render sr db P
                       end
                  else (Post_delete db P, HttpResponseRedirect url_index))
                 = (Post_delete db P, HttpResponseRedirect url_index)).
    { destruct Hdel as [-> | Hv]; [ reflexivity | ].
      destruct (delete_validates_form sr); [ | reflexivity ].
      destruct (PostForms (POST_data request) None); [ reflexivity | ].
      now elim Hv. }
    rewrite Ed. cbn [fst snd].
    assert (Hposts : forall Q, In Q (blog_post (Post_delete db P))
                               <-> In Q (blog_post db)
                                   /\ Post.id Q <> Post.id P).
    { intro Q. unfold Post_delete. simpl. rewrite filter_In, negb_true_iff.
      now rewrite Z.eqb_neq. }
    split; [ reflexivity | ]. split; [ exact Hposts | ]. split.
    + intro c. unfold Post_delete. simpl. rewrite filter_In, negb_true_iff.
      now rewrite Z.eqb_neq.
    + intros Hfit. unfold PostDetailView.
      pose proof (get_Post_or_404_id db _ P E) as [_ Ep].
      rewrite get_Post_or_404_None.
      * apply no_row_fits. intros i Ei. rewrite Ep in Ei.
        injection Ei as <-. exact Hfit.
      * intros Q HQ Ek. apply Hposts in HQ. destruct HQ as [_ Hne].
        rewrite Ep in Ek. injection Ek as Ek. now apply Hne.
  - intros Hv Hf. rewrite Hv, Hf. unfold PostDeleteView_render.
    now rewrite (get_Post_or_404_again db _ P E).
Qed.

Lemma author_deletes_post_and_its_comments_witness :
  let request :=
    Sample.post_ (LoggedIn Sample.alice) (Sample.kw_post_id 1) [] in
  let rejects := fun (_ : QueryDict) (_ : option Post.t) => @None Post.t in
  get_Post_or_404 Sample.db (Some 1) = Some Sample.older
  /\ Post.author Sample.older = User.id Sample.alice
  /\ key_fits (Post.id Sample.older) = true
  /\ (let db' :=
        fst (PostDeleteView Sample.series_3 rejects Sample.db request) in
      blog_post db'
      = [Sample.newer; Sample.draft; Sample.ahead; Sample.uncategorised;
         Sample.in_hidden]
      /\ blog_comment db' = []
      /\ PostDetailView Sample.series_3 db' request = Http404)
  /\ PostDeleteView Sample.series_5 rejects Sample.db request
     = (Sample.db, TemplateResponse "blog/create.html"
                     (post_form_context (Some Sample.older))).
Proof.
  intros request rejects.
  split; [ reflexivity | ]. split; [ reflexivity | ].
  split; [ reflexivity | ].
  destruct (author_deletes_post_and_its_comments Sample.series_3 rejects
              Sample.db request Sample.older Sample.alice
              eq_refl eq_refl eq_refl eq_refl) as [Hdel _].
  destruct (Hdel (or_introl eq_refl)) as [_ [_ [_ Hgone]]].
  destruct (author_deletes_post_and_its_comments Sample.series_5 rejects
              Sample.db request Sample.older Sample.alice
              eq_refl eq_refl eq_refl eq_refl) as [_ Hkeep].
  split.
  - split; [ reflexivity | ]. split; [ reflexivity | ].
    apply Hgone. reflexivity.
  - apply Hkeep; reflexivity.
Defined.

Lemma map_id_Post_update (db : Database) (p : Post.t) :
  map Post.id (blog_post (Post_update db p)) = map Post.id (blog_post db).
Proof.
  unfold Post_update. simpl. rewrite map_map. apply map_ext.
  intro r. destruct (Z.eqb_spec (Post.id r) (Post.id p)); congruence.
Qed.

Lemma In_Post_update (db : Database) (p : Post.t) :
  In (Post.id p) (map Post.id (blog_post db)) ->
  In p (blog_post (Post_update db p)).
Proof.
  intros H. apply in_map_iff in H. destruct H as [r [Er Hr]].
  unfold Post_update. simpl. apply in_map_iff. exists r.
  split; [ | exact Hr ]. rewrite Er. now rewrite Z.eqb_refl.
Qed.

(** When its author submits a valid edit of a post, the saved row takes the
    place of the old one under the same id: the ids of the table, and with
    them the uniqueness of the key, are as before, every other post and
    every comment is untouched, the author is sent to the post's page, and
    that page now shows the saved row. *)
Theorem author_edits_post_in_place
    (sr : Series)
    (PostForms : QueryDict -> option Post.t -> option Post.t)
    (db : Database) (request : HttpRequest) (P instance : Post.t)
    (u : User.t) :
  NoDup (map Post.id (blog_post db)) ->
  get_Post_or_404 db (post_id (kwargs request)) = Some P ->
  user request = LoggedIn u ->
  Post.author P = User.id u ->
  method request = POST ->
  PostForms (POST_data request) (Some P) = Some instance ->
  let db' := fst (PostEditView sr PostForms db request) in
  let saved := Post_with_id instance (Post.id P) in
  snd (PostEditView sr PostForms db request)
  = HttpResponseRedirect (url_post_detail (Post.id P))
  /\ map Post.id (blog_post db') = map Post.id (blog_post db)
  /\ (forall Q, In Q (blog_post db) -> Post.id Q <> Post.id P ->
                In Q (blog_post db'))
  /\ blog_comment db' = blog_comment db
  /\ PostDetailView sr db' request
     = TemplateResponse "blog/detail.html"
         (detail_context saved (Post_comments db' saved)).
Proof.
  intros Hnd E Eu Ea Em Ef db' saved.
  assert (Ed : PostEditView sr PostForms db request
               = (Post_update db saved,
                  HttpResponseRedirect (url_post_detail (Post.id P)))).
  { unfold PostEditView.
    rewrite (PostEditMixin_dispatch_guard sr _ db request P E), Eu.
    rewrite (author_ne_false _ u Ea).
    unfold LoginRequiredMixin_dispatch, Post_UpdateView.
    now rewrite Eu, E, Em, Ef. }
  subst db'. rewrite Ed. cbn [fst snd].
  pose proof (get_Post_or_404_id db _ P E) as [HP Ek].
  split; [ reflexivity | ]. split; [ apply map_id_Post_update | ].
  split; [ | split; [ reflexivity | ] ].
  - intros Q HQ Hne. unfold Post_update. simpl. apply in_map_iff.
    exists Q. split; [ | exact HQ ].
    apply Z.eqb_neq in Hne. simpl. now rewrite Hne.
  - unfold PostDetailView. rewrite Ek.
    change (Some (Post.id P)) with (Some (Post.id saved)).
    rewrite get_Post_or_404_unique; [ reflexivity | | ].
    + now rewrite map_id_Post_update.
    + apply In_Post_update. simpl. now apply in_map.
Qed.

Lemma author_edits_post_in_place_witness :
  NoDup (map Post.id (blog_post Sample.db))
  /\ get_Post_or_404 Sample.db (Some 1) = Some Sample.older
  /\ Post.author Sample.older = User.id Sample.alice
  /\ let request :=
       Sample.post_ (LoggedIn Sample.alice) (Sample.kw_post_id 1) [] in
     let db' :=
       fst (PostEditView Sample.series_3 Sample.form_naming_bob Sample.db
              request) in
     map Post.id (blog_post db') = map Post.id (blog_post Sample.db).
Proof.
  assert (Hnd : NoDup (map Post.id (blog_post Sample.db))).
  { simpl. repeat constructor; simpl; intuition discriminate. }
  split; [ exact Hnd | ]. split; [ reflexivity | ]. split; [ reflexivity | ].
  destruct (author_edits_post_in_place Sample.series_3
              Sample.form_naming_bob Sample.db
              (Sample.post_ (LoggedIn Sample.alice) (Sample.kw_post_id 1) [])
              Sample.older
              (Sample.mk_post 0 "Mine" 10 (User.id Sample.bob) (Some 1) true)
              Sample.alice Hnd eq_refl eq_refl eq_refl eq_refl eq_refl)
    as [_ [H _]].
  exact H.
Defined.

Lemma next_pk_above (ids : list Z) (x : Z) : In x ids -> x < next_pk ids.
Proof.
  unfold next_pk. induction ids as [ | y ids IH ]; cbn [fold_right In];
    [ tauto | ].
  intros [-> | H]; [ lia | ]. specialize (IH H). lia.
Qed.

Lemma next_pk_fresh (ids : list Z) : ~ In (next_pk ids) ids.
Proof. intro H. apply next_pk_above in H. lia. Qed.

Lemma NoDup_snoc {A} (l : list A) (a : A) :
  NoDup l -> ~ In a l -> NoDup (l ++ [a]).
Proof.
  induction l as [ | x l IH ]; simpl; intros Hnd Hin.
  - constructor; [ tauto | constructor ].
  - inversion Hnd as [ | ? ? Hx Hl ]; subst. constructor.
    + rewrite in_app_iff. simpl. intuition.
    + apply IH; tauto.
Qed.



(** A visitor who is not logged in cannot create anything: the post creation
    view, and the comment creation view on a post that exists, send them to
    the login page and write nothing. *)
Theorem anonymous_visitor_cannot_create
    (sr : Series)
    (PostForms : QueryDict -> option Post.t -> option Post.t)
    (CommentForm : QueryDict -> option Comment.t -> option Comment.t)
    (now : Z) (db : Database) (request : HttpRequest) :
  user request = AnonymousUser ->
  PostCreatView PostForms db request = (db, HttpResponseRedirect url_login)
  /\ (forall p, get_Post_or_404 db (post_id (kwargs request)) = Some p ->
                CommentCreateView sr CommentForm now db request
                = (db, HttpResponseRedirect url_login)).
Proof.
  intros Eu. unfold PostCreatView, CommentCreateView,
    LoginRequiredMixin_dispatch.
  rewrite Eu. split; [ reflexivity | ].
  intros p Ep. now rewrite Ep.
Qed.

Lemma anonymous_visitor_cannot_create_witness :
  get_Post_or_404 Sample.db (Some 1) = Some Sample.older
  /\ CommentCreateView Sample.series_3 Sample.no_comment_form Sample.now
       Sample.db (Sample.post_ AnonymousUser (Sample.kw_post_id 1) [])
     = (Sample.db, HttpResponseRedirect url_login).
Proof.
  split; [ reflexivity | ].
  destruct (anonymous_visitor_cannot_create Sample.series_3
              Sample.form_naming_bob
              Sample.no_comment_form Sample.now Sample.db
              (Sample.post_ AnonymousUser (Sample.kw_post_id 1) []) eq_refl)
    as [_ H].
  apply (H Sample.older). reflexivity.
Defined.

(** A submission the form rejects writes nothing, in the creation views and
    in the edit views alike. *)
Theorem rejected_form_writes_nothing
    (sr : Series)
    (PostForms : QueryDict -> option Post.t -> option Post.t)
    (CommentForm : QueryDict -> option Comment.t -> option Comment.t)
    (now : Z) (db : Database) (request : HttpRequest) :
  ((forall i, PostForms (POST_data request) i = None) ->
   fst (PostCreatView PostForms db request) = db
   /\ fst (PostEditView sr PostForms db request) = db)
  /\ ((forall i, CommentForm (POST_data request) i = None) ->
      fst (CommentCreateView sr CommentForm now db request) = db
      /\ fst (EditComment sr CommentForm db request) = db).
Proof.
  split; intros Hf.
  - split.
    + unfold PostCreatView. rewrite fst_LoginRequiredMixin_dispatch, Hf.
      destruct (is_authenticated _); [ | reflexivity ].
      now destruct (method request).
    + unfold PostEditView, PostEditMixin_dispatch.
      destruct (get_Post_or_404 _ _) as [P | ] eqn:E; [ | reflexivity ].
      destruct (author_ne _ _); [ reflexivity | ].
      rewrite fst_LoginRequiredMixin_dispatch. unfold Post_UpdateView.
      rewrite E, Hf. destruct (is_authenticated _); [ | reflexivity ].
      now destruct (method request).
  - split.
    + unfold CommentCreateView.
      destruct (get_Post_or_404 _ _) as [P | ]; [ | reflexivity ].
      rewrite fst_LoginRequiredMixin_dispatch, Hf.
      destruct (is_authenticated _); [ | reflexivity ].
      now destruct (method request).
    + unfold EditComment, CommentEditMixin_dispatch.
      destruct (get_Comment_or_404 _ _) as [C | ] eqn:E; [ | reflexivity ].
      destruct (author_ne _ _); [ reflexivity | ].
      rewrite fst_LoginRequiredMixin_dispatch. unfold Comment_UpdateView.
      rewrite E, Hf. destruct (is_authenticated _); [ | reflexivity ].
      now destruct (method request).
Qed.

Lemma rejected_form_writes_nothing_witness :
  (forall i, Sample.no_comment_form [] i = None)
  /\ fst (CommentCreateView Sample.series_3 Sample.no_comment_form Sample.now
            Sample.db
            (Sample.post_ (LoggedIn Sample.bob) (Sample.kw_post_id 1) []))
     = Sample.db.
Proof.
  split; [ reflexivity | ].
  destruct (rejected_form_writes_nothing Sample.series_3 Sample.form_naming_bob
              Sample.no_comment_form Sample.now Sample.db
              (Sample.post_ (LoggedIn Sample.bob) (Sample.kw_post_id 1) []))
    as [_ H].
  destruct (H (fun i => eq_refl)) as [Hc _]. exact Hc.
Defined.

(** ** Comments *)

Lemma Count_comments_snoc (db : Database) (c : Comment.t) (q : Post.t) :
  Count_comments (set_blog_comment db (blog_comment db ++ [c])) q
  = if Comment.posts c =? Post.id q
    then S (Count_comments db q) else Count_comments db q.
Proof.
  unfold Count_comments. simpl. rewrite filter_app, length_app. simpl.
  destruct (Comment.posts c =? Post.id q); simpl; lia.
Qed.

(** A valid comment by a logged-in user on a post that exists adds one row
    to the comments, stamped with the clock and under a key no comment had;
    the posts are untouched; the comment count of that post goes up by one
    and that of every other post stays; the user is sent to the post's
    page. *)
Theorem created_comment_counts_once
    (sr : Series)
    (CommentForm : QueryDict -> option Comment.t -> option Comment.t)
    (now : Z) (db : Database) (request : HttpRequest) (p : Post.t)
    (instance : Comment.t) (u : User.t) :
  get_Post_or_404 db (post_id (kwargs request)) = Some p ->
  user request = LoggedIn u ->
  method request = POST ->
  CommentForm (POST_data request) None = Some instance ->
  let db' := fst (CommentCreateView sr CommentForm now db request) in
  snd (CommentCreateView sr CommentForm now db request)
  = HttpResponseRedirect (url_post_detail (Post.id p))
  /\ blog_post db' = blog_post db
  /\ (exists saved,
         blog_comment db' = (blog_comment db ++ [saved])%list
         /\ Comment.text saved = Comment.text instance
         /\ Comment.created_at saved = now
         /\ ~ In (Comment.id saved) (map Comment.id (blog_comment db)))
  /\ Count_comments db' p = S (Count_comments db p)
  /\ (forall q, Post.id q <> Post.id p ->
                Count_comments db' q = Count_comments db q).
Proof.
  intros Ep Eu Em Ef db'.
  set (saved :=
         Comment_with_created_at
           (Comment_with_id
              (Comment_with_author_posts instance (User.id u) (Post.id p))
              (next_pk (map Comment.id (blog_comment db)))) now).
  assert (Ed : CommentCreateView sr CommentForm now db request
               = (set_blog_comment db (blog_comment db ++ [saved]),
                  HttpResponseRedirect (url_post_detail (Post.id p)))).
  { unfold CommentCreateView, LoginRequiredMixin_dispatch.
    now rewrite Ep, Eu, Em, Ef. }
  subst db'. rewrite Ed. cbn [fst snd].
  split; [ reflexivity | ]. split; [ reflexivity | ].
  split; [ | split ].
  - exists saved. repeat split. apply next_pk_fresh.
  - rewrite Count_comments_snoc. simpl. now rewrite Z.eqb_refl.
  - intros q Hq. rewrite Count_comments_snoc. simpl.
    destruct (Z.eqb_spec (Post.id p) (Post.id q)); [ | reflexivity ].
    now elim Hq.
Qed.

Lemma created_comment_counts_once_witness :
  let form := fun (_ : QueryDict) (_ : option Comment.t) =>
                Some {| Comment.id := 0; Comment.text := "nice";
                        Comment.posts := 0; Comment.created_at := 0;
                        Comment.author := 0 |} in
  let request := Sample.post_ (LoggedIn Sample.bob) (Sample.kw_post_id 1) [] in
  get_Post_or_404 Sample.db (Some 1) = Some Sample.older
  /\ Count_comments
       (fst (CommentCreateView Sample.series_3 form Sample.now Sample.db
               request))
       Sample.older
     = S (Count_comments Sample.db Sample.older).
Proof.
  intros form request. split; [ reflexivity | ].
  destruct (created_comment_counts_once Sample.series_3 form Sample.now
              Sample.db request
              Sample.older
              {| Comment.id := 0; Comment.text := "nice";
                 Comment.posts := 0; Comment.created_at := 0;
                 Comment.author := 0 |}
              Sample.bob eq_refl eq_refl eq_refl eq_refl)
    as [_ [_ [_ [H _]]]].
  exact H.
Defined.

Lemma StronglySorted_impl {A} (R S : A -> A -> Prop) (l : list A) :
  (forall a b, R a b -> S a b) -> StronglySorted R l -> StronglySorted S l.
Proof.
  intros HRS Hs. induction Hs as [ | a l Hl IH Ha ]; constructor;
    [ exact IH | ].
  eapply Forall_impl; [ | exact Ha ]. intros b Hb. now apply HRS.
Qed.

(** The comments under which a post's detail page shows it are the
    comments on that post, all of them and none of another post, each as
    often as the store holds it, and every one of them was created no later
    than all that follow it. *)
Theorem post_detail_shows_its_comments_oldest_first
    (sr : Series)
    (db : Database) (request : HttpRequest) (P : Post.t)
    (template_name : string) (comments : list Comment.t) :
  PostDetailView sr db request
  = TemplateResponse template_name (detail_context P comments) ->
  Permutation
    (filter (fun c => Comment.posts c =? Post.id P) (blog_comment db))
    comments
  /\ (forall c, In c comments
                <-> In c (blog_comment db) /\ Comment.posts c = Post.id P)
  /\ StronglySorted
       (fun a b => Comment.created_at a <= Comment.created_at b) comments.
Proof.
  unfold PostDetailView.
  destruct (get_Post_or_404 db (post_id (kwargs request))) as [object | ];
    [ | destruct (no_row_cases sr (post_id (kwargs request))) as [-> | ->];
        discriminate ].
  intros E. injection E as _ <- <-. unfold Post_comments.
  pose proof (CommentSort.Permuted_sort
                (filter (fun c => Comment.posts c =? Post.id object)
                        (blog_comment db))) as Hperm.
  split; [ exact Hperm | ]. split.
  - intro c. split; intro H.
    + apply (Permutation_in _ (Permutation_sym Hperm)) in H.
      apply filter_In in H. now rewrite Z.eqb_eq in H.
    + apply (Permutation_in _ Hperm). apply filter_In.
      now rewrite Z.eqb_eq.
  - assert (Ht : Transitive (fun a b => is_true (CommentOrdering.leb a b))).
    { intros a b c. unfold CommentOrdering.leb, is_true.
      rewrite !Z.leb_le. lia. }
    eapply StronglySorted_impl;
      [ | apply CommentSort.StronglySorted_sort; exact Ht ].
    intros a b Hab. now apply Z.leb_le.
Qed.

Lemma post_detail_shows_its_comments_oldest_first_witness :
  let request := Sample.get AnonymousUser (Sample.kw_post_id 1) None in
  blog_comment Thread.db = [Thread.late; Thread.elsewhere; Thread.early]
  /\ PostDetailView Sample.series_3 Thread.db request
     = TemplateResponse "blog/detail.html"
         (detail_context Sample.older [Thread.early; Thread.late])
  /\ Permutation
       (filter (fun c => Comment.posts c =? Post.id Sample.older)
               (blog_comment Thread.db))
       [Thread.early; Thread.late]
  /\ (forall c, In c [Thread.early; Thread.late]
                <-> In c (blog_comment Thread.db)
                    /\ Comment.posts c = Post.id Sample.older)
  /\ StronglySorted
       (fun a b => Comment.created_at a <= Comment.created_at b)
       [Thread.early; Thread.late].
Proof.
  intros request. split; [ reflexivity | ]. split; [ reflexivity | ].
  apply (post_detail_shows_its_comments_oldest_first Sample.series_3
           Thread.db request Sample.older "blog/detail.html"
           [Thread.early; Thread.late]).
  reflexivity.
Defined.

(** When its author POSTs to the delete view of a comment, in a series
    before 4.0, or in a later one with data the view's form accepts, the
    rows under that comment's key are gone and every other comment and every
    post stays; the author is sent to the page of the post the comment was
    on, whichever post the URL named.  From 4.0 on, with data the form
    rejects, nothing is deleted and the page is rendered again. *)
Theorem author_deletes_comment
    (sr : Series)
    (CommentForm : QueryDict -> option Comment.t -> option Comment.t)
    (db : Database) (request : HttpRequest) (C : Comment.t) (u : User.t) :
  get_Comment_or_404 db (comment_id (kwargs request)) = Some C ->
  user request = LoggedIn u ->
  Comment.author C = User.id u ->
  method request = POST ->
  (delete_validates_form sr = false
   \/ CommentForm (POST_data request) None <> None ->
   let db' := fst (CommentDeleteView sr CommentForm db request) in
   snd (CommentDeleteView sr CommentForm db request)
   = HttpResponseRedirect (url_post_detail (Comment.posts C))
   /\ (forall c, In c (blog_comment db')
                 <-> In c (blog_comment db) /\ Comment.id c <> Comment.id C)
   /\ blog_post db' = blog_post db
   /\ get_Comment_or_404 db' (comment_id (kwargs request)) = None)
  /\ (delete_validates_form sr = true ->
      CommentForm (POST_data request) None = None ->
      CommentDeleteView sr CommentForm db request
      = (db, TemplateResponse "blog/comment.html"
               (comment_form_context (Some C)))).
Proof.
  intros E Eu Ea Em.
  assert (Eg : CommentDeleteView sr CommentForm db request
               = Comment_DeleteView sr CommentForm db request).
  { unfold CommentDeleteView.
    rewrite (CommentEditMixin_dispatch_guard sr _ db request C E), Eu.
    rewrite (author_ne_false _ u Ea).
    unfold LoginRequiredMixin_dispatch. now rewrite Eu. }
  rewrite Eg. unfold Comment_DeleteView. rewrite E, Em. split.
  - intros Hdel.
    assert (Ed : (if delete_validates_form sr
                  then match CommentForm (POST_data request) None with
                       | Some _ =>
                           (Comment_delete db C,
                            HttpResponseRedirect
                              (url_post_detail (Comment.posts C)))
                       | None =>
                           (db, TemplateResponse "blog/comment.html"
                                  (comment_form_context (Some C)))
                       end
                  else (Comment_delete db C,
                        HttpResponseRedirect
                          (url_post_detail (Comment.posts C))))
                 = (Comment_delete db C,
                    HttpResponseRedirect
                      (url_post_detail (Comment.posts C)))).
    { destruct Hdel as [-> | Hv]; [ reflexivity | ].
      destruct (delete_validates_form sr); [ | reflexivity ].
      destruct (CommentForm (POST_data request) None); [ reflexivity | ].
      now elim Hv. }
    rewrite Ed. cbn [fst snd].
    assert (Hc : forall c, In c (blog_comment (Comment_delete db C))
                           <-> In c (blog_comment db)
                               /\ Comment.id c <> Comment.id C).
    { intro c. unfold Comment_delete. simpl.
      rewrite filter_In, negb_true_iff. now rewrite Z.eqb_neq. }
    split; [ reflexivity | ]. split; [ exact Hc | ].
    split; [ reflexivity | ].
    apply get_Comment_or_404_None. intros c Hin Ek.
    apply Hc in Hin. destruct Hin as [_ Hne].
    apply get_Comment_or_404_id in E. destruct E as [_ Ec].
    rewrite Ec in Ek. injection Ek as Ek. now apply Hne.
  - intros Hv Hf. now rewrite Hv, Hf.
Qed.

Lemma author_deletes_comment_witness :
  let request :=
    Sample.post_ (LoggedIn Sample.alice) (Sample.kw_comment_id 2 1) [] in
  get_Comment_or_404 Sample.db (Some 1) = Some Sample.remark
  /\ Comment.author Sample.remark = User.id Sample.alice
  /\ snd (CommentDeleteView Sample.series_3 Sample.no_comment_form
            Sample.db request)
     = HttpResponseRedirect (url_post_detail 1)
  /\ blog_comment
       (fst (CommentDeleteView Sample.series_3 Sample.no_comment_form
               Sample.db request))
     = []
  /\ CommentDeleteView Sample.series_5 Sample.no_comment_form
       Sample.db request
     = (Sample.db, TemplateResponse "blog/comment.html"
                     (comment_form_context (Some Sample.remark))).
Proof.
  intros request. split; [ reflexivity | ]. split; [ reflexivity | ].
  destruct (author_deletes_comment Sample.series_3 Sample.no_comment_form
              Sample.db request Sample.remark Sample.alice
              eq_refl eq_refl eq_refl eq_refl) as [Hdel _].
  destruct (Hdel (or_introl eq_refl)) as [Hto _].
  destruct (author_deletes_comment Sample.series_5 Sample.no_comment_form
              Sample.db request Sample.remark Sample.alice
              eq_refl eq_refl eq_refl eq_refl) as [_ Hkeep].
  split; [ exact Hto | ]. split; [ reflexivity | ].
  apply Hkeep; reflexivity.
Defined.

Lemma map_id_Comment_update (db : Database) (c : Comment.t) :
  map Comment.id (blog_comment (Comment_update db c))
  = map Comment.id (blog_comment db).
Proof.
  unfold Comment_update. simpl. rewrite map_map. apply map_ext.
  intro r. destruct (Z.eqb_spec (Comment.id r) (Comment.id c)); congruence.
Qed.

(** When its author submits a valid edit of a comment, the saved row takes
    the place of the old one under the same key: the keys of the table are
    as before, every other comment and every post is untouched, and the
    author is sent to the page of the post the saved comment is on. *)
Theorem author_edits_comment_in_place
    (sr : Series)
    (CommentForm : QueryDict -> option Comment.t -> option Comment.t)
    (db : Database) (request : HttpRequest) (C instance : Comment.t)
    (u : User.t) :
  get_Comment_or_404 db (comment_id (kwargs request)) = Some C ->
  user request = LoggedIn u ->
  Comment.author C = User.id u ->
  method request = POST ->
  CommentForm (POST_data request) (Some C) = Some instance ->
  let db' := fst (EditComment sr CommentForm db request) in
  let saved := Comment_with_id instance (Comment.id C) in
  snd (EditComment sr CommentForm db request)
  = HttpResponseRedirect (url_post_detail (Comment.posts saved))
  /\ map Comment.id (blog_comment db') = map Comment.id (blog_comment db)
  /\ In saved (blog_comment db')
  /\ (forall c, In c (blog_comment db) -> Comment.id c <> Comment.id C ->
                In c (blog_comment db'))
  /\ blog_post db' = blog_post db.
Proof.
  intros E Eu Ea Em Ef db' saved.
  assert (Ed : EditComment sr CommentForm db request
               = (Comment_update db saved,
                  HttpResponseRedirect (url_post_detail (Comment.posts saved)))).
  { unfold EditComment.
    rewrite (CommentEditMixin_dispatch_guard sr _ db request C E), Eu.
    rewrite (author_ne_false _ u Ea).
    unfold LoginRequiredMixin_dispatch, Comment_UpdateView.
    now rewrite Eu, E, Em, Ef. }
  subst db'. rewrite Ed. cbn [fst snd].
  pose proof (get_Comment_or_404_id db _ C E) as [HC _].
  split; [ reflexivity | ]. split; [ apply map_id_Comment_update | ].
  split; [ | split; [ | reflexivity ] ].
  - unfold Comment_update. simpl. apply in_map_iff. exists C.
    split; [ | exact HC ]. now rewrite Z.eqb_refl.
  - intros c Hc Hne. unfold Comment_update. simpl. apply in_map_iff.
    exists c. split; [ | exact Hc ].
    apply Z.eqb_neq in Hne. now rewrite Hne.
Qed.

Lemma author_edits_comment_in_place_witness :
  let form := fun (_ : QueryDict) (_ : option Comment.t) =>
                Some {| Comment.id := 0; Comment.text := "edited";
                        Comment.posts := 1; Comment.created_at := 160;
                        Comment.author := 1 |} in
  let request :=
    Sample.post_ (LoggedIn Sample.alice) (Sample.kw_comment_id 1 1) [] in
  get_Comment_or_404 Sample.db (Some 1) = Some Sample.remark
  /\ Comment.author Sample.remark = User.id Sample.alice
  /\ map Comment.id
       (blog_comment (fst (EditComment Sample.series_3 form Sample.db request)))
     = map Comment.id (blog_comment Sample.db).
Proof.
  intros form request. split; [ reflexivity | ]. split; [ reflexivity | ].
  destruct (author_edits_comment_in_place Sample.series_3 form Sample.db
              request Sample.remark
              {| Comment.id := 0; Comment.text := "edited";
                 Comment.posts := 1; Comment.created_at := 160;
                 Comment.author := 1 |}
              Sample.alice eq_refl eq_refl eq_refl eq_refl eq_refl)
    as [_ [H _]].
  exact H.
Defined.

(** ** The category page *)

Lemma CategoryListView_get_object_Some (db : Database) (s : string) :
  (exists object, CategoryListView_get_object db (Some s) = Some object)
  <-> exists c, In c (blog_category db) /\ Category.slug c = s
                /\ Category.is_published c = true.
Proof.
  unfold CategoryListView_get_object. split.
  - intros [object E]. apply find_some in E. destruct E as [Hin Es].
    apply filter_In in Hin. apply String.eqb_eq in Es.
    exists object. tauto.
  - intros [c [Hin [Es Hp]]].
    destruct (find _ _) as [object | ] eqn:E; [ eauto | exfalso ].
    assert (Hf : String.eqb (Category.slug c) s = false).
    { apply (find_none _ _ E c). apply filter_In. now split. }
    apply String.eqb_neq in Hf. now apply Hf.
Qed.

Lemma CategoryListView_lists_iff (fw : Framework) (now : Z) (db : Database)
    (s : string) (P : Post.t) :
  CategoryListView_lists fw now db s P
  <-> (exists object, CategoryListView_get_object db (Some s) = Some object)
      /\ appears P (CategoryListView_posts fw now db (Some s)).
Proof.
  unfold CategoryListView_lists, CategoryListView. split.
  - intros [request [category [pg [Ek [E H]]]]]. rewrite Ek in E.
    destruct (CategoryListView_get_object db (Some s)) as [object | ];
      [ | discriminate ].
    split; [ eauto | ].
    unfold render_page in E.
    destruct (get_page _ (GET_page request)) as [e | pg'] eqn:Eg;
      [ discriminate | ].
    injection E as _ <-.
    apply get_page_page in Eg. destruct Eg as [n Eg].
    unfold appears in *. apply in_map_iff in H. destruct H as [r [<- Hr]].
    apply in_map. eapply page_incl; eassumption.
  - intros [[object Eo] H].
    unfold appears in H. apply in_map_iff in H. destruct H as [r [<- Hr]].
    apply on_a_page_iff in Hr. destruct Hr as [n [pg [Ep Hr]]].
    exists {| method := GET; user := AnonymousUser;
              kwargs := {| post_id := None; comment_id := None;
                           category_slug := Some s; username := None |};
              GET_page := Some (page_int n); POST_data := [] |}, object, pg.
    cbn [kwargs category_slug]. rewrite Eo.
    unfold render_page. cbn [GET_page]. rewrite (page_get_page _ _ _ Ep).
    repeat split. now apply in_map.
Qed.

(** The page of a category lists exactly the posts that sit in the category
    of that slug, are published and are not dated after now, provided a
    published category of that slug exists; and since the page exists for
    published categories only, every post it lists is live in the sense of
    the specification. *)
Theorem category_page_lists_the_live_posts_of_the_category
    (fw : Framework) (now : Z) (db : Database) (s : string) (P : Post.t) :
  NoDup (map Category.slug (blog_category db)) ->
  (CategoryListView_lists fw now db s P
   <-> (exists c, In c (blog_category db) /\ Category.slug c = s
                  /\ Category.is_published c = true)
       /\ In P (blog_post db)
       /\ (exists c, Post_category db P = Some c /\ Category.slug c = s)
       /\ Post.is_published P = true
       /\ Post.pub_date P <= now)
  /\ (CategoryListView_lists fw now db s P -> spec_live db now P = true).
Proof.
  intros Hnd.
  assert (Hrows :
    CategoryListView_lists fw now db s P
    <-> (exists c, In c (blog_category db) /\ Category.slug c = s
                   /\ Category.is_published c = true)
        /\ In P (blog_post db)
        /\ (exists c, Post_category db P = Some c /\ Category.slug c = s)
        /\ Post.is_published P = true
        /\ Post.pub_date P <= now).
  { rewrite CategoryListView_lists_iff, CategoryListView_get_object_Some.
    unfold CategoryListView_posts, select_related.
    rewrite appears_Meta_ordering, appears_filter_annotate. simpl.
    rewrite !andb_true_iff, Z.leb_le.
    assert (Hs : category__slug db (Some s) P = true
                 <-> exists c, Post_category db P = Some c
                               /\ Category.slug c = s).
    { unfold category__slug. destruct (Post_category db P) as [c | ].
      - rewrite String.eqb_eq. split; [ eauto | ].
        intros [c' [E Es]]. congruence.
      - split; [ discriminate | intros [c' [E _]]; discriminate ]. }
    rewrite Hs. tauto. }
  split; [ exact Hrows | ].
  intros H. apply Hrows in H.
  destruct H as [[c [Hc [Es Hp]]] [HP [[c0 [E0 Es0]] [Hpub Hd]]]].
  unfold spec_live. rewrite Hpub. apply Z.leb_le in Hd. rewrite Hd. simpl.
  destruct (Post.category P) as [k | ] eqn:Ek; [ | reflexivity ].
  unfold category__is_published. rewrite E0.
  assert (Hc0 : In c0 (blog_category db)).
  { unfold Post_category in E0. rewrite Ek in E0.
    now apply find_some in E0. }
  assert (c0 = c) by (eapply NoDup_map_eq; try eassumption; congruence).
  now subst c0.
Qed.

Lemma category_page_lists_the_live_posts_of_the_category_witness :
  NoDup (map Category.slug (blog_category Sample.db))
  /\ (CategoryListView_lists no_meta_ordering_in_group_by Sample.now
        Sample.db "travel" Sample.newer
      -> spec_live Sample.db Sample.now Sample.newer = true).
Proof.
  assert (Hnd : NoDup (map Category.slug (blog_category Sample.db))).
  { simpl. repeat constructor; simpl; intuition discriminate. }
  split; [ exact Hnd | ].
  apply (category_page_lists_the_live_posts_of_the_category
           no_meta_ordering_in_group_by Sample.now Sample.db "travel"
           Sample.newer Hnd).
Defined.

(** ** What the listings never show *)

(** The clock reading the homepage queryset holds is never ahead of the
    clock, so the homepage never lists a post that is not live now: what it
    lists is in the store, published, not dated after now, and in a
    published category. *)
Theorem homepage_lists_live_posts_only
    (import_time now : Z) (db : Database) (P : Post.t) :
  import_time <= now ->
  HomePage_lists import_time db P ->
  In P (blog_post db)
  /\ spec_live db now P = true
  /\ Post.category P <> None.
Proof.
  intros Hclock H.
  apply HomePage_lists_iff, HomePage_get_queryset_rows in H.
  destruct H as [Hin [Hd [Hp Hc]]].
  split; [ exact Hin | ].
  unfold spec_live. rewrite Hp, Hc.
  assert (Hn : (Post.pub_date P <=? now) = true) by (apply Z.leb_le; lia).
  rewrite Hn.
  unfold category__is_published, Post_category in Hc.
  destruct (Post.category P); [ | discriminate Hc ].
  split; [ reflexivity | discriminate ].
Qed.

Lemma homepage_lists_live_posts_only_witness :
  100 <= 200
  /\ (HomePage_lists 100 Sample.db Sample.older
      -> In Sample.older (blog_post Sample.db)
         /\ spec_live Sample.db 200 Sample.older = true
         /\ Post.category Sample.older <> None).
Proof.
  split; [ lia | ].
  apply (homepage_lists_live_posts_only 100 200 Sample.db Sample.older).
  lia.
Defined.

(** ** The profile page and the page parameter *)

Lemma get_User_or_404_again (db : Database) (s : option string) (U : User.t) :
  get_User_or_404 db s = Some U ->
  get_User_or_404 db (Some (User.username U)) = Some U.
Proof.
  destruct s as [s' | ]; [ | discriminate ]. simpl. intros E.
  pose proof (find_some _ _ E) as [_ Es]. apply String.eqb_eq in Es.
  now rewrite Es.
Qed.

(** The page [get_page] answers with is one of the pages of the listing. *)
Lemma get_page_number {A} (l : list A) (arg : option PageText) (pg : Page A) :
  get_page (new_Paginator l OBJECTS_PER_PAGE) arg = inr pg ->
  1 <= number pg <= num_pages (new_Paginator l OBJECTS_PER_PAGE)
  /\ page (new_Paginator l OBJECTS_PER_PAGE) (Some (page_int (number pg)))
     = inr pg.
Proof.
  assert (Hp : 0 < OBJECTS_PER_PAGE) by reflexivity.
  pose proof (num_pages_pos l OBJECTS_PER_PAGE Hp) as Hn.
  unfold get_page.
  destruct (validate_number _ arg) as [[ | ] | n] eqn:E.
  - rewrite page_in_range by lia. intros H. injection H as <-.
    cbn [number]. split; [ lia | ]. now rewrite page_in_range by lia.
  - rewrite page_in_range by lia. intros H. injection H as <-.
    cbn [number]. split; [ lia | ]. now rewrite page_in_range by lia.
  - assert (Hr : 1 <= n <= num_pages (new_Paginator l OBJECTS_PER_PAGE)).
    { unfold validate_number in E.
      destruct arg as [[m | | | ] | ]; try discriminate.
      destruct (Z.ltb_spec m 1); [ discriminate | ].
      destruct (Z.ltb_spec (num_pages (new_Paginator l OBJECTS_PER_PAGE)) m).
      - destruct (Z.eqb_spec m 1); simpl in E; [ | discriminate ].
        injection E as <-. lia.
      - injection E as <-. lia. }
    rewrite page_in_range by exact Hr. intros H. injection H as <-.
    cbn [number]. split; [ exact Hr | ]. now rewrite page_in_range by exact Hr.
Qed.

(** The profile page of a username no user has is not-found; the profile
    page of a user that exists is always rendered, whatever the page
    parameter holds, with one of the pages of that user's listing, and
    every row on it is a post that user authored. *)
Theorem profile_page_of_a_known_user_always_renders
    (fw : Framework) (now : Z) (db : Database) (request : HttpRequest) :
  (get_User_or_404 db (username (kwargs request)) = None ->
   ProfileView fw now db request = Http404)
  /\ (forall U,
         get_User_or_404 db (username (kwargs request)) = Some U ->
         exists posts pg,
           ProfileView_posts fw now db (user request) U = Some posts
           /\ ProfileView fw now db request
              = TemplateResponse PROFILE_HTML (profile_context U pg)
           /\ 1 <= number pg
                <= num_pages (new_Paginator posts OBJECTS_PER_PAGE)
           /\ forall r, In r (object_list pg) ->
                        In r posts
                        /\ In (post r) (blog_post db)
                        /\ Post.author (post r) = User.id U).
Proof.
  unfold ProfileView. split.
  - intros E. now rewrite E.
  - intros U E. rewrite E.
    assert (Hposts : exists posts,
               ProfileView_posts fw now db (user request) U = Some posts
               /\ forall r, In r posts ->
                            In (post r) (blog_post db)
                            /\ Post.author (post r) = User.id U).
    { unfold ProfileView_posts. rewrite (get_User_or_404_again db _ U E).
      unfold select_related.
      destruct (is_authenticated (user request)); eexists;
        (split; [ reflexivity | ]); intros r Hr;
        assert (Ha : appears (post r) (Meta_ordering fw _))
          by (apply in_map; exact Hr);
        apply appears_Meta_ordering, appears_filter_annotate in Ha;
        simpl in Ha; rewrite ?andb_true_iff, Z.eqb_eq in Ha; tauto. }
    destruct Hposts as [posts [Ep Hrows]]. rewrite Ep.
    assert (Hp : 0 < OBJECTS_PER_PAGE) by reflexivity.
    unfold render_page.
    destruct (get_page_total posts OBJECTS_PER_PAGE Hp (GET_page request))
      as [pg Eg].
    rewrite Eg. exists posts, pg.
    destruct (get_page_number posts _ pg Eg) as [Hn Epg].
    split; [ reflexivity | ]. split; [ reflexivity | ].
    split; [ exact Hn | ].
    intros r Hr.
    assert (Hin : In r posts) by (eapply page_incl; eassumption).
    split; [ exact Hin | now apply Hrows ].
Qed.

Lemma profile_page_of_a_known_user_always_renders_witness :
  get_User_or_404 Sample.db (Some "carol") = None
  /\ ProfileView no_meta_ordering_in_group_by Sample.now Sample.db
       (Sample.get AnonymousUser (Sample.kw_username "carol") None)
     = Http404.
Proof.
  split; [ reflexivity | ].
  destruct (profile_page_of_a_known_user_always_renders
              no_meta_ordering_in_group_by Sample.now Sample.db
              (Sample.get AnonymousUser (Sample.kw_username "carol") None))
    as [H _].
  apply H. reflexivity.
Defined.

(** How the page parameter is read.  On the homepage an absent or empty
    parameter shows page 1, the text 'last' shows the last page, and any
    other text that is no integer is not-found; on the profile page and on
    the category page every parameter that is no integer, 'last' included,
    shows page 1. *)
Theorem page_parameter_that_is_no_integer
    (fw : Framework) (now import_time : Z) (db : Database)
    (request : HttpRequest) :
  (GET_page request = None \/ GET_page request = Some page_empty ->
   exists pg,
     HomePage import_time db request
     = TemplateResponse "blog/index.html" (index_context pg)
     /\ number pg = 1)
  /\ (GET_page request = Some page_last ->
      exists pg,
        HomePage import_time db request
        = TemplateResponse "blog/index.html" (index_context pg)
        /\ last_page (HomePage_get_queryset import_time db) = inr pg)
  /\ (GET_page request = Some page_other ->
      HomePage import_time db request = Http404)
  /\ ((forall n, GET_page request <> Some (page_int n)) ->
      (forall U posts,
          get_User_or_404 db (username (kwargs request)) = Some U ->
          ProfileView_posts fw now db (user request) U = Some posts ->
          exists pg,
            ProfileView fw now db request
            = TemplateResponse PROFILE_HTML (profile_context U pg)
            /\ number pg = 1)
      /\ (forall object,
             CategoryListView_get_object db (category_slug (kwargs request))
             = Some object ->
             exists pg,
               CategoryListView fw now db request
               = TemplateResponse "blog/category.html"
                   (category_context object pg)
               /\ number pg = 1)).
Proof.
  assert (Hp : 0 < OBJECTS_PER_PAGE) by reflexivity.
  assert (Hfirst : forall A (l : list A),
             exists pg, page (new_Paginator l OBJECTS_PER_PAGE)
                             (Some (page_int 1)) = inr pg
                        /\ number pg = 1).
  { intros A l. pose proof (num_pages_pos l OBJECTS_PER_PAGE Hp).
    rewrite page_in_range by lia. eexists. split; reflexivity. }
  assert (Hrender : forall A (l : list A) (k : Page A -> HttpResponse),
             (forall n, GET_page request <> Some (page_int n)) ->
             exists pg, render_page l request k = k pg /\ number pg = 1).
  { intros A l k Hn. unfold render_page, get_page.
    destruct (Hfirst A l) as [pg [E1 En]].
    assert (Ev : validate_number (new_Paginator l OBJECTS_PER_PAGE)
                                 (GET_page request) = inl PageNotAnInteger).
    { destruct (GET_page request) as [[n | | | ] | ]; try reflexivity.
      now elim (Hn n). }
    rewrite Ev, E1. eauto. }
  unfold HomePage, paginate_queryset.
  split; [ | split; [ | split; [ | split ] ] ].
  - intros H.
    destruct (Hfirst _ (HomePage_get_queryset import_time db)) as [pg [E1 En]].
    exists pg. destruct H as [-> | ->]; rewrite E1; now split.
  - intros ->.
    pose proof (num_pages_pos (HomePage_get_queryset import_time db)
                  OBJECTS_PER_PAGE Hp).
    unfold last_page. rewrite page_in_range by lia.
    eexists. split; reflexivity.
  - intros ->. reflexivity.
  - intros U posts EU Eposts. unfold ProfileView. rewrite EU, Eposts.
    apply Hrender. assumption.
  - intros object Eo. unfold CategoryListView. rewrite Eo.
    apply Hrender. assumption.
Qed.

Lemma page_parameter_that_is_no_integer_witness :
  let request := Sample.get AnonymousUser Sample.no_kwargs (Some page_other) in
  GET_page request = Some page_other
  /\ HomePage 100 Sample.db25 request = Http404.
Proof.
  intros request. split; [ reflexivity | ].
  destruct (page_parameter_that_is_no_integer no_meta_ordering_in_group_by
              100 100 Sample.db25 request)
    as [_ [_ [H _]]].
  apply H. reflexivity.
Defined.

(** ** The pages together *)

Lemma firstn_then_firstn_skipn {A} (a b : nat) (l : list A) :
  (firstn a l ++ firstn b (skipn a l))%list = firstn (a + b) l.
Proof.
  revert l. induction a as [ | a IH ]; intro l; [ reflexivity | ].
  destruct l as [ | x l ]; simpl.
  - now rewrite firstn_nil.
  - now rewrite IH.
Qed.

(** The first [k] pages, one after the other, are the first [10 * k] rows
    of the listing. *)
Lemma pages_up_to {A} (l : list A) (k : nat) :
  Z.of_nat k <= num_pages (new_Paginator l OBJECTS_PER_PAGE) ->
  List.concat (map (page_rows l) (seq 1 k)) = firstn (10 * k) l.
Proof.
  induction k as [ | k IH ]; intro Hk; [ reflexivity | ].
  rewrite seq_S, map_app, concat_app, IH by lia.
  cbn [map List.concat Nat.add]. rewrite app_nil_r.
  unfold page_rows. rewrite page_in_range by lia.
  cbn [object_list]. unfold slice, count, OBJECTS_PER_PAGE.
  cbn [paginator_object_list new_Paginator].
  replace (Z.to_nat ((Z.of_nat (S k) - 1) * 10)) with (10 * k)%nat by lia.
  rewrite firstn_then_firstn_skipn.
  destruct (Z.le_gt_cases (Z.of_nat (List.length l))
              ((Z.of_nat (S k) - 1) * 10 + 10)) as [Hle | Hgt].
  - rewrite Z.min_l by lia.
    rewrite !firstn_all2 by lia. reflexivity.
  - rewrite Z.min_r by lia. f_equal. lia.
Qed.

(** The pages of a listing, put one after the other from the first to the
    last, are the listing: each row is on one page, none is left out and
    none is shown twice. *)
Theorem pages_together_are_the_listing {A} (l : list A) :
  List.concat (all_pages l) = l.
Proof.
  unfold all_pages.
  assert (Hp : 0 < OBJECTS_PER_PAGE) by reflexivity.
  pose proof (num_pages_pos l OBJECTS_PER_PAGE Hp) as Hn.
  pose proof (num_pages_bounds l OBJECTS_PER_PAGE Hp) as Hb.
  rewrite count_new in Hb. unfold OBJECTS_PER_PAGE in Hb at 2 4.
  rewrite pages_up_to by lia.
  apply firstn_all2. lia.
Qed.

(** ** What the writing views keep *)

Lemma NoDup_map_filter {A K} (key : A -> K) (f : A -> bool) (l : list A) :
  NoDup (map key l) -> NoDup (map key (filter f l)).
Proof.
  induction l as [ | x l IH ]; simpl; intro H; [ constructor | ].
  inversion H as [ | ? ? Hx Hl ]; subst.
  destruct (f x); [ | now apply IH ].
  simpl. constructor; [ | now apply IH ].
  intro Hin. apply Hx. apply in_map_iff in Hin.
  destruct Hin as [y [Ey Hy]]. apply filter_In in Hy.
  rewrite <- Ey. apply in_map. tauto.
Qed.

(** The stores one request can lead to, view by view. *)
Lemma serves_cases
    (sr : Series)
    (PostForms : QueryDict -> option Post.t -> option Post.t)
    (CommentForm : QueryDict -> option Comment.t -> option Comment.t)
    (db db' : Database) :
  serves sr PostForms CommentForm db db' ->
  db' = db
  \/ (exists p, db' = fst (Post_insert db p))
  \/ (exists P p, In P (blog_post db)
                  /\ db' = Post_update db (Post_with_id p (Post.id P)))
  \/ (exists P, db' = Post_delete db P)
  \/ (exists now P c, In P (blog_post db) /\ Comment.posts c = Post.id P
                      /\ db' = fst (Comment_insert now db c))
  \/ (exists C c data, In C (blog_comment db)
                       /\ CommentForm data (Some C) = Some c
                       /\ db' = Comment_update db
                                  (Comment_with_id c (Comment.id C)))
  \/ (exists C, db' = Comment_delete db C).
Proof.
  intros H. destruct H as [db request | db request | db request
                          | now db request | db request | db request].
  - unfold PostCreatView. rewrite fst_LoginRequiredMixin_dispatch.
    destruct (is_authenticated _); [ | now left ].
    destruct (method request); [ now left | ].
    destruct (PostForms _ None) as [instance | ]; [ | now left ].
    destruct (user request) as [ | u ]; [ now left | ].
    right. left. simpl. eauto.
  - unfold PostEditView, PostEditMixin_dispatch.
    destruct (get_Post_or_404 _ _) as [P | ] eqn:E; [ | now left ].
    destruct (author_ne _ _); [ now left | ].
    rewrite fst_LoginRequiredMixin_dispatch. unfold Post_UpdateView.
    rewrite E. destruct (is_authenticated _); [ | now left ].
    destruct (method request); [ now left | ].
    destruct (PostForms _ _) as [instance | ]; [ | now left ].
    apply get_Post_or_404_id in E. destruct E as [HP _].
    right. right. left. simpl. eauto.
  - unfold PostDeleteView, PostEditMixin_dispatch.
    destruct (get_Post_or_404 _ _) as [P | ] eqn:E; [ | now left ].
    destruct (author_ne _ _); [ now left | ].
    rewrite fst_LoginRequiredMixin_dispatch.
    unfold Post_DeleteView, PostDeleteView_render.
    rewrite E. destruct (is_authenticated _); [ | now left ].
    destruct (method request).
    + destruct (get_Post_or_404 db (Some (Post.id P))); now left.
    + destruct (delete_validates_form sr);
        [ destruct (PostForms _ None) | ];
        try (right; right; right; left; simpl; eauto; fail).
      destruct (get_Post_or_404 db (Some (Post.id P))); now left.
  - unfold CommentCreateView.
    destruct (get_Post_or_404 _ _) as [P | ] eqn:E; [ | now left ].
    rewrite fst_LoginRequiredMixin_dispatch.
    destruct (is_authenticated _); [ | now left ].
    destruct (method request); [ now left | ].
    destruct (CommentForm _ None) as [instance | ]; [ | now left ].
    destruct (user request) as [ | u ]; [ now left | ].
    apply get_Post_or_404_id in E. destruct E as [HP _].
    do 4 right. left. simpl.
    exists now, P,
      (Comment_with_author_posts instance (User.id u) (Post.id P)).
    split; [ exact HP | ]. split; reflexivity.
  - unfold EditComment, CommentEditMixin_dispatch.
    destruct (get_Comment_or_404 _ _) as [C | ] eqn:E; [ | now left ].
    destruct (author_ne _ _); [ now left | ].
    rewrite fst_LoginRequiredMixin_dispatch. unfold Comment_UpdateView.
    rewrite E. destruct (is_authenticated _); [ | now left ].
    destruct (method request); [ now left | ].
    destruct (CommentForm _ _) as [instance | ] eqn:Ef; [ | now left ].
    apply get_Comment_or_404_id in E. destruct E as [HC _].
    do 5 right. left. simpl. eauto 6.
  - unfold CommentDeleteView, CommentEditMixin_dispatch.
    destruct (get_Comment_or_404 _ _) as [C | ] eqn:E; [ | now left ].
    destruct (author_ne _ _); [ now left | ].
    rewrite fst_LoginRequiredMixin_dispatch. unfold Comment_DeleteView.
    rewrite E. destruct (is_authenticated _); [ | now left ].
    destruct (method request); [ now left | ].
    destruct (delete_validates_form sr);
      [ destruct (CommentForm _ None) | ];
      try (do 6 right; simpl; eauto; fail).
    now left.
Qed.

Lemma serves_keeps_keys_unique
    (sr : Series)
    (PostForms : QueryDict -> option Post.t -> option Post.t)
    (CommentForm : QueryDict -> option Comment.t -> option Comment.t)
    (db db' : Database) :
  serves sr PostForms CommentForm db db' -> keys_unique db -> keys_unique db'.
Proof.
  intros H [Hp Hc]. apply serves_cases in H. unfold keys_unique.
  destruct H as [-> | [[p ->] | [[P [p [HP ->]]] | [[P ->] | [[now [P [c [HP [_ ->]]]]]
                | [[C [c [data [HC [_ ->]]]]] | [C ->]]]]]]].
  - now split.
  - split; [ | exact Hc ]. simpl. rewrite map_app.
    apply NoDup_snoc; [ exact Hp | apply next_pk_fresh ].
  - split; [ | exact Hc ]. now rewrite map_id_Post_update.
  - split; simpl; now apply NoDup_map_filter.
  - split; [ exact Hp | ]. simpl. rewrite map_app.
    apply NoDup_snoc; [ exact Hc | apply next_pk_fresh ].
  - split; [ exact Hp | ]. now rewrite map_id_Comment_update.
  - split; [ exact Hp | ]. simpl. now apply NoDup_map_filter.
Qed.

(** However many requests the views that write serve, and whatever the
    forms accept, the primary keys of posts and comments stay unique. *)
Theorem keys_stay_unique
    (sr : Series)
    (PostForms : QueryDict -> option Post.t -> option Post.t)
    (CommentForm : QueryDict -> option Comment.t -> option Comment.t)
    (db db' : Database) :
  clos_refl_trans Database (serves sr PostForms CommentForm) db db' ->
  keys_unique db -> keys_unique db'.
Proof.
  intros H. induction H as [db db' H | db | db db1 db' _ IH1 _ IH2].
  - exact (serves_keeps_keys_unique sr PostForms CommentForm db db' H).
  - tauto.
  - tauto.
Qed.

Lemma keys_stay_unique_witness :
  let request := Sample.post_ (LoggedIn Sample.alice) Sample.no_kwargs [] in
  keys_unique Sample.db
  /\ keys_unique
       (fst (PostCreatView Sample.form_naming_bob Sample.db request)).
Proof.
  intros request.
  assert (H : keys_unique Sample.db).
  { split; simpl; repeat constructor; simpl; intuition discriminate. }
  split; [ exact H | ].
  apply (keys_stay_unique Sample.series_3 Sample.form_naming_bob
           Sample.no_comment_form
           Sample.db); [ | exact H ].
  apply rt_step. apply serves_PostCreatView.
Defined.

Lemma serves_keeps_comments_on_posts
    (sr : Series)
    (PostForms : QueryDict -> option Post.t -> option Post.t)
    (CommentForm : QueryDict -> option Comment.t -> option Comment.t)
    (db db' : Database) :
  (forall data C c, CommentForm data (Some C) = Some c ->
                    Comment.posts c = Comment.posts C) ->
  serves sr PostForms CommentForm db db' ->
  comments_reference_posts db -> comments_reference_posts db'.
Proof.
  intros Hform H Hr. apply serves_cases in H. unfold comments_reference_posts.
  destruct H as [-> | [[p ->] | [[P [p [HP ->]]] | [[P ->] | [[now [P [c [HP [Ec ->]]]]]
                | [[C [c [data [HC [Ef ->]]]]] | [C ->]]]]]]].
  - exact Hr.
  - intros c Hc. simpl in *. rewrite map_app. apply in_or_app. left.
    now apply Hr.
  - intros c Hc. rewrite map_id_Post_update. now apply Hr.
  - intros c Hc. simpl in *. apply filter_In in Hc. destruct Hc as [Hc Hne].
    apply negb_true_iff, Z.eqb_neq in Hne.
    specialize (Hr c Hc). apply in_map_iff in Hr. destruct Hr as [Q [EQ HQ]].
    apply in_map_iff. exists Q. split; [ exact EQ | ].
    apply filter_In. split; [ exact HQ | ].
    apply negb_true_iff, Z.eqb_neq. congruence.
  - intros c' Hc. simpl in *. apply in_app_or in Hc.
    destruct Hc as [Hc | [<- | []]]; [ now apply Hr | ].
    simpl. rewrite Ec. now apply in_map.
  - intros c' Hc. simpl in *. apply in_map_iff in Hc.
    destruct Hc as [r [Er Hrow]].
    destruct (Comment.id r =? Comment.id C); [ | subst; now apply Hr ].
    subst c'. simpl. rewrite (Hform data C c Ef). now apply Hr.
  - intros c Hc. simpl in *. apply filter_In in Hc. now apply Hr.
Qed.

(** Provided the comment form leaves the post of a comment alone, every
    comment stays on a post of the store, however many requests the views
    that write serve: a comment is created on a post that exists, and a post
    takes its comments with it when it is deleted. *)
Theorem comments_stay_on_posts_of_the_store
    (sr : Series)
    (PostForms : QueryDict -> option Post.t -> option Post.t)
    (CommentForm : QueryDict -> option Comment.t -> option Comment.t)
    (db db' : Database) :
  (forall data C c, CommentForm data (Some C) = Some c ->
                    Comment.posts c = Comment.posts C) ->
  clos_refl_trans Database (serves sr PostForms CommentForm) db db' ->
  comments_reference_posts db -> comments_reference_posts db'.
Proof.
  intros Hform H. induction H as [db db' H | db | db db1 db' _ IH1 _ IH2].
  - exact (serves_keeps_comments_on_posts sr PostForms CommentForm db db'
             Hform H).
  - tauto.
  - tauto.
Qed.

Lemma comments_stay_on_posts_of_the_store_witness :
  let request :=
    Sample.post_ (LoggedIn Sample.alice) (Sample.kw_post_id 1) [] in
  (forall data C c, Sample.no_comment_form data (Some C) = Some c ->
                    Comment.posts c = Comment.posts C)
  /\ comments_reference_posts Sample.db
  /\ comments_reference_posts
       (fst (PostDeleteView Sample.series_3 Sample.form_naming_bob Sample.db
               request)).
Proof.
  intros request.
  assert (Hf : forall data C c,
             Sample.no_comment_form data (Some C) = Some c ->
             Comment.posts c = Comment.posts C)
    by (intros data C c E; discriminate E).
  assert (H : comments_reference_posts Sample.db).
  { intros c Hc. simpl in Hc. destruct Hc as [<- | []]. simpl. tauto. }
  split; [ exact Hf | ]. split; [ exact H | ].
  apply (comments_stay_on_posts_of_the_store Sample.series_3
           Sample.form_naming_bob
           Sample.no_comment_form Sample.db _ Hf); [ | exact H ].
  apply rt_step. apply serves_PostDeleteView.
Defined.

(** ** The rows of the listings *)

(** Every page of the homepage is in the order of [HomePage.ordering]:
    later publication first, equal dates by title. *)
Theorem homepage_pages_are_ordered
    (import_time : Z) (db : Database) (request : HttpRequest)
    (template_name : string) (pg : Page AnnotatedPost) :
  HomePage import_time db request
  = TemplateResponse template_name (index_context pg) ->
  spec_ordered (object_list pg).
Proof.
  unfold HomePage.
  destruct (paginate_queryset _ _ request) as [pg' | ] eqn:E;
    [ | discriminate ].
  intros H. injection H as _ <-.
  apply paginate_queryset_page in E. destruct E as [n E].
  eapply page_ordered; [ apply HomePage_listing_ordered | exact E ].
Qed.

Lemma homepage_pages_are_ordered_witness :
  exists pg,
    HomePage Sample.now Sample.db
      (Sample.get AnonymousUser Sample.no_kwargs None)
    = TemplateResponse "blog/index.html" (index_context pg)
    /\ map post (object_list pg) = [Sample.newer; Sample.older]
    /\ spec_ordered (object_list pg).
Proof.
  eexists. split; [ reflexivity | ]. split; [ reflexivity | ].
  apply (homepage_pages_are_ordered Sample.now Sample.db
           (Sample.get AnonymousUser Sample.no_kwargs None)
           "blog/index.html").
  reflexivity.
Defined.

(** Every row a listing page shows, on the homepage, on a profile and on a
    category page, carries as its comment count the number of all comments
    the store holds on that post. *)
Theorem listed_rows_count_all_comments
    (fw : Framework) (now import_time : Z) (db : Database)
    (request : HttpRequest) (pg : Page AnnotatedPost) (r : AnnotatedPost) :
  page_obj_of (HomePage import_time db request) = Some pg
  \/ page_obj_of (ProfileView fw now db request) = Some pg
  \/ page_obj_of (CategoryListView fw now db request) = Some pg ->
  In r (object_list pg) ->
  comment_count r
  = List.length
      (filter (fun c => Comment.posts c =? Post.id (post r))
              (blog_comment db)).
Proof.
  assert (Hann : forall (f : AnnotatedPost -> bool) l,
             In r (filter f (map (annotate db) l)) ->
             comment_count r = Count_comments db (post r)).
  { intros f l H. apply filter_In in H. destruct H as [H _].
    apply in_map_iff in H. destruct H as [p [<- _]]. reflexivity. }
  assert (Hsort : forall l, In r (order_by_pub_date_title l) -> In r l).
  { intros l H. eapply Permutation_in;
      [ apply Permutation_sym, PostSort.Permuted_sort | exact H ]. }
  assert (Hmeta : forall l, In r (Meta_ordering fw l) -> In r l).
  { intros l. destruct fw; simpl; [ apply Hsort | tauto ]. }
  intros [H | [H | H]] Hr.
  - unfold HomePage in H.
    destruct (paginate_queryset _ _ request) as [pg' | ] eqn:E;
      [ | discriminate ].
    injection H as <-. apply paginate_queryset_page in E.
    destruct E as [n E].
    apply (page_incl _ _ _ _ r E) in Hr.
    apply Hsort in Hr. now apply Hann in Hr.
  - unfold ProfileView in H.
    destruct (get_User_or_404 _ _) as [object | ]; [ | discriminate ].
    destruct (ProfileView_posts _ _ _ _ _) as [posts | ] eqn:Ep;
      [ | discriminate ].
    unfold render_page in H.
    destruct (get_page _ _) as [e | pg'] eqn:Eg; [ discriminate | ].
    injection H as <-. apply get_page_page in Eg. destruct Eg as [n Eg].
    apply (page_incl _ _ _ _ r Eg) in Hr.
    unfold ProfileView_posts in Ep.
    destruct (is_authenticated _);
      destruct (get_User_or_404 db _); try discriminate;
      injection Ep as <-; apply Hmeta in Hr; now apply Hann in Hr.
  - unfold CategoryListView in H.
    destruct (CategoryListView_get_object _ _) as [object | ];
      [ | discriminate ].
    unfold render_page in H.
    destruct (get_page _ _) as [e | pg'] eqn:Eg; [ discriminate | ].
    injection H as <-. apply get_page_page in Eg. destruct Eg as [n Eg].
    apply (page_incl _ _ _ _ r Eg) in Hr.
    unfold CategoryListView_posts in Hr. apply Hmeta in Hr.
    now apply Hann in Hr.
Qed.

Lemma listed_rows_count_all_comments_witness :
  let request := Sample.get AnonymousUser Sample.no_kwargs None in
  let row := {| post := Sample.older; comment_count := 1 |} in
  exists pg,
    page_obj_of (HomePage Sample.now Sample.db request) = Some pg
    /\ In row (object_list pg)
    /\ comment_count row
       = List.length
           (filter (fun c => Comment.posts c =? Post.id (post row))
                   (blog_comment Sample.db)).
Proof.
  intros request row. eexists.
  split; [ reflexivity | ]. split; [ simpl; tauto | ].
  eapply (listed_rows_count_all_comments no_meta_ordering_in_group_by
            Sample.now Sample.now Sample.db request).
  - left. reflexivity.
  - simpl. tauto.
Defined.
